(** * Bug tracker (app.js): access policy and dashboard query

    A shallow embedding of the route handlers of [app.js] and of the Bug
    schema, with the properties of the access policy, the dashboard query
    and the registration / login handlers stated over it.

    Conventions.
    - A JavaScript [undefined] is [None]; an object used as a dictionary
      ([req.query], [req.body], the Mongo filter) is a [gmap string _].
    - A string is a sequence of code units below 256.
    - An [await] that may reject is a [result]; the [try]/[catch] of a
      handler is [try_catch].
    - What the handlers hand to bcrypt and to the Mongoose layer, and which
      this file does not contain, is a method of the class [Collaborators]. *)

From Stdlib Require Import ZArith String Ascii List Sorting.Sorted Sorting.Permutation.
From stdpp Require Import base option gmap strings list sorting.

Set Warnings "-register-all".

Open Scope string_scope.
Open Scope list_scope.
Open Scope Z_scope.

(** ** JavaScript values and coercions *)

Module JS.

(** The numbers the handlers compute with.  [Int z] is an integer with
    [|z| <= 2^53], the range in which IEEE doubles are exact; the two zeros
    are not told apart. *)
Inductive jsnum :=
| NaN
| Inf (negative : bool)
| Int (z : Z).

Definition safe (z : Z) : bool := Z.abs z <=? 2 ^ 53.

(** A number operation answers [None] when its result is outside of what
    [jsnum] covers (a fraction, or an integer beyond the exact range). *)
Definition int_result (z : Z) : option jsnum :=
  if safe z then Some (Int z) else None.

(** [a - b] *)
Definition sub (a b : jsnum) : option jsnum :=
  match a, b with
  | NaN, _ | _, NaN => Some NaN
  | Inf s, Inf t => if Bool.eqb s t then Some NaN else Some (Inf s)
  | Inf s, Int _ => Some (Inf s)
  | Int _, Inf t => Some (Inf (negb t))
  | Int x, Int y => int_result (x - y)
  end.

(** [a * b] *)
Definition mul (a b : jsnum) : option jsnum :=
  match a, b with
  | NaN, _ | _, NaN => Some NaN
  | Inf s, Inf t => Some (Inf (xorb s t))
  | Inf s, Int z | Int z, Inf s =>
      if z =? 0 then Some NaN else Some (Inf (xorb s (z <? 0)))
  | Int x, Int y => int_result (x * y)
  end.


(** *** Strings *)

Definition chars : string -> list ascii := list_ascii_of_string.
Definition text : list ascii -> string := string_of_list_ascii.

Definition code (c : ascii) : N := N_of_ascii c.

(** StrWhiteSpaceChar, for code units below 256: TAB, LF, VT, FF, CR, SP,
    NBSP. *)
Definition is_space (c : ascii) : bool :=
  let n := code c in
  ((9 <=? n) && (n <=? 13))%N || (n =? 32)%N || (n =? 160)%N.

Definition digit_of (base : N) (c : ascii) : option Z :=
  let n := code c in
  let v :=
    if ((48 <=? n) && (n <=? 57))%N then Some (n - 48)%N
    else if ((97 <=? n) && (n <=? 102))%N then Some (n - 87)%N
    else if ((65 <=? n) && (n <=? 70))%N then Some (n - 55)%N
    else None in
  match v with
  | Some d => if (d <? base)%N then Some (Z.of_N d) else None
  | None => None
  end.

Definition is_digit (c : ascii) : bool := bool_decide (is_Some (digit_of 10 c)).

Fixpoint trim_start (l : list ascii) : list ascii :=
  match l with
  | c :: l' => if is_space c then trim_start l' else l
  | [] => []
  end.

Definition trim (l : list ascii) : list ascii :=
  rev (trim_start (rev (trim_start l))).

(** The longest prefix of decimal digits, and the rest. *)
Fixpoint span_digits (l : list ascii) : list ascii * list ascii :=
  match l with
  | c :: l' =>
      if is_digit c then let '(ds, r) := span_digits l' in (c :: ds, r)
      else ([], l)
  | [] => ([], [])
  end.

(** The value of a digit sequence in [base], [None] if a character is not
    a digit of that base. *)
Fixpoint digits_value (base : N) (acc : Z) (l : list ascii) : option Z :=
  match l with
  | [] => Some acc
  | c :: l' =>
      match digit_of base c with
      | Some d => digits_value base (acc * Z.of_N base + d) l'
      | None => None
      end
  end.

Definition sign_of (l : list ascii) : bool * list ascii :=
  match l with
  | "+"%char :: r => (false, r)
  | "-"%char :: r => (true, r)
  | _ => (false, l)
  end.

Definition is_e (c : ascii) : bool :=
  (code c =? 101)%N || (code c =? 69)%N.

(** ExponentPart_opt at the end of a literal: [Some e] when the rest [l] is
    empty or is a well-formed exponent part. *)
Definition exponent_part (l : list ascii) : option Z :=
  match l with
  | [] => Some 0
  | c :: r =>
      if is_e c then
        let '(neg, ds) := sign_of r in
        match ds with
        | [] => None
        | _ => (fun e => if neg then - e else e) <$> digits_value 10 0 ds
        end
      else None
  end.

(** The number with mathematical value [m * 10 ^ e], [m >= 0]. *)
Definition scaled (neg : bool) (m e : Z) : option jsnum :=
  let sgn z := if neg then - z else z in
  if m =? 0 then Some (Int 0)
  else if 309 <=? e then Some (Inf neg)
  else if 0 <=? e then int_result (sgn (m * 10 ^ e))
  else if e <? -400 then None
  else if m mod 10 ^ (- e) =? 0 then int_result (sgn (m / 10 ^ (- e)))
  else None.

(** StrUnsignedDecimalLiteral, other than [Infinity]. The outer [None] is
    "not a literal" (so [NaN]). *)
Definition unsigned_decimal (neg : bool) (l : list ascii)
  : option (option jsnum) :=
  let '(ip, r1) := span_digits l in
  let '(fp, r2) :=
    match r1 with
    | "."%char :: r => span_digits r
    | _ => ([], r1)
    end in
  match ip ++ fp with
  | [] => None
  | ds =>
      match digits_value 10 0 ds, exponent_part r2 with
      | Some m, Some e => Some (scaled neg m (e - Z.of_nat (length fp)))
      | _, _ => None
      end
  end.

(** NonDecimalIntegerLiteral: [0x], [0o], [0b] and their digits, unsigned. *)
Definition non_decimal (l : list ascii) : option (option jsnum) :=
  match l with
  | "0"%char :: p :: ((_ :: _) as ds) =>
      let base :=
        if ((code p =? 120) || (code p =? 88))%N then Some 16%N
        else if ((code p =? 111) || (code p =? 79))%N then Some 8%N
        else if ((code p =? 98) || (code p =? 66))%N then Some 2%N
        else None in
      match base with
      | Some b => int_result <$> digits_value b 0 ds
      | None => None
      end
  | _ => None
  end.

(** StringToNumber.  [Some NaN] when the text is not a StringNumericLiteral. *)
Definition StringToNumber (s : string) : option jsnum :=
  let l := trim (chars s) in
  match l with
  | [] => Some (Int 0)
  | _ =>
      match non_decimal l with
      | Some r => r
      | None =>
          let '(neg, u) := sign_of l in
          if String.eqb (text u) "Infinity" then Some (Inf neg)
          else
            match unsigned_decimal neg u with
            | Some r => r
            | None => Some NaN
            end
      end
  end.

(** *** Values of [req.query] (the qs parser: strings, arrays, objects) *)

Inductive qsval :=
| QStr (s : string)
| QArr (items : list qsval)
| QObj (fields : list (string * qsval)).

Definition join (sep : string) (l : list string) : string :=
  match l with
  | [] => ""
  | s :: r => fold_left (fun acc t => acc +:+ sep +:+ t) r s
  end.

(** ToString: an array joins its elements with a comma, a plain object is
    ["[object Object]"]. *)
Fixpoint ToString (v : qsval) : string :=
  match v with
  | QStr s => s
  | QArr items => join "," (map ToString items)
  | QObj _ => "[object Object]"
  end.

Definition ToNumber (v : qsval) : option jsnum := StringToNumber (ToString v).

(** ToBoolean: only the empty string is falsy. *)
Definition truthy (v : option qsval) : bool :=
  match v with
  | None => false
  | Some (QStr s) => negb (String.eqb s "")
  | Some _ => true
  end.

(** *** Values of [req.body] (urlencoded or JSON) *)

Inductive jsval :=
| JNull
| JBool (b : bool)
| JNum (n : jsnum)
| JStr (s : string)
| JArr (items : list jsval)
| JObj (fields : list (string * jsval)).

Definition truthy_body (v : option jsval) : bool :=
  match v with
  | None | Some JNull => false
  | Some (JBool b) => b
  | Some (JNum n) => match n with NaN | Int 0 => false | _ => true end
  | Some (JStr s) => negb (String.eqb s "")
  | Some (JArr _) | Some (JObj _) => true
  end.

(** [v === s] for a string literal [s]. *)
Definition strict_eq_str (v : option jsval) (s : string) : bool :=
  match v with
  | Some (JStr t) => String.eqb t s
  | _ => false
  end.

End JS.


(** ** Data model *)

(** An ObjectId, as its 24-digit hexadecimal text: [String(id)] is the
    identity, and two ids are the same id iff their texts are equal. *)
Definition ObjectId := string.

(** [bugSchema]: [title] required; [description] optional; [severity] and
    [status] strings restricted to an enumeration, with a default;
    [reporter] a required reference to a User; [timestamps] ([updatedAt],
    which no handler reads, is left out).  A path that is not required
    can be stored as [null], here [None]: [description], and [severity]
    when a body gives it as [null] (no handler can do so for [status]). *)
Module Bug.
Record t := mk {
  _id : ObjectId;
  title : string;
  description : option string;
  severity : option string;
  status : string;
  reporter : ObjectId;
  createdAt : Z
}.

Definition severity_enum : list string := ["Low"; "Medium"; "High"].
Definition status_enum : list string := ["Open"; "In Progress"; "Closed"].
Definition severity_default : string := "Low".
Definition status_default : string := "Open".

(** The text of a path of the document, as a query condition sees it. *)
Definition path (name : string) (b : t) : option string :=
  if String.eqb name "_id" then Some (_id b)
  else if String.eqb name "title" then Some (title b)
  else if String.eqb name "description" then description b
  else if String.eqb name "severity" then severity b
  else if String.eqb name "status" then Some (status b)
  else if String.eqb name "reporter" then Some (reporter b)
  else None.

(** Schema validation at [save]: the required title holds some text; the
    enumerations hold of the texts, and accept a [null]. *)
Definition valid (b : t) : bool :=
  negb (String.eqb (title b) "")
  && match severity b with
     | Some v => bool_decide (v ∈ severity_enum)
     | None => true
     end
  && bool_decide (status b ∈ status_enum).
End Bug.

(** Modelled from the spec: the User schema ([models/User.js] is not part
  of the sources): name, unique email, password hash, role, creation
  time. *)
Module User.
Record t := mk {
  _id : ObjectId;
  name : string;
  email : string;
  passwordHash : string;
  role : string;
  createdAt : Z
}.
End User.

(** [req.session]: the identity fields the login handler writes. *)
Record Session := {
  userId : option ObjectId;
  userName : option string;
  userRole : option string
}.

Definition no_session : Session :=
  {| userId := None; userName := None; userRole := None |}.

(** The two collections, in insertion order. *)
Record Store := {
  users : list User.t;
  bugs : list Bug.t
}.

(** What a request gets from its environment: the clock, the identifier
    the driver generates for a new document, and the salt bcrypt draws. *)
Record Env := {
  now : Z;
  newId : ObjectId;
  salt : string
}.

(** ** Regular expressions: the patterns [$regex] is modelled for

    A pattern of this fragment is a sequence of atoms, each a literal
    ASCII character or [.], optionally followed by one greedy quantifier
    [*], [+] or [?].  Any other pattern (an escape, a class, a group, an
    alternative, an anchor, a brace, a lazy or possessive quantifier, a
    character above 127) is outside of it. *)
Module Regex.

Inductive atom := Lit (c : ascii) | Dot.
Inductive quant := One | Opt | Star | Plus.
Definition pattern := list (atom * quant).

Definition is_meta (c : ascii) : bool :=
  bool_decide (c ∈ JS.chars "\^$.[]|()?*+{}").

Definition atom_of (c : ascii) : option atom :=
  if (128 <=? JS.code c)%N then None
  else if Ascii.eqb c "."%char then Some Dot
  else if is_meta c then None
  else Some (Lit c).

Definition quant_of (c : ascii) : option quant :=
  if Ascii.eqb c "*"%char then Some Star
  else if Ascii.eqb c "+"%char then Some Plus
  else if Ascii.eqb c "?"%char then Some Opt
  else None.

Fixpoint parse (l : list ascii) : option pattern :=
  match l with
  | [] => Some []
  | c :: r =>
      match atom_of c with
      | None => None
      | Some a =>
          match r with
          | [] => Some [(a, One)]
          | d :: r' =>
              match quant_of d with
              | Some q => cons (a, q) <$> parse r'
              | None => cons (a, One) <$> parse r
              end
          end
      end
  end.

(** Caseless comparison folds the ASCII letters. *)
Definition lower (c : ascii) : ascii :=
  let n := JS.code c in
  if ((65 <=? n) && (n <=? 90))%N then ascii_of_N (n + 32) else c.

(** [.] matches any character but a line feed. *)
Definition atom_matches (a : atom) (c : ascii) : bool :=
  match a with
  | Lit x => Ascii.eqb (lower x) (lower c)
  | Dot => negb (JS.code c =? 10)%N
  end.

(** Does the character [a] repeated ([many]: any number of times, else at
    most once), followed by what [k] accepts, match a prefix of [s]? *)
Fixpoint repeat_then (a : atom) (many : bool) (k : list ascii -> bool)
    (s : list ascii) : bool :=
  k s ||
  match s with
  | c :: s' =>
      atom_matches a c && (if many then repeat_then a many k s' else k s')
  | [] => false
  end.

(** Does the pattern match a prefix of [s]? *)
Fixpoint match_here (p : pattern) (s : list ascii) : bool :=
  match p with
  | [] => true
  | (a, q) :: p' =>
      let k := match_here p' in
      match q with
      | One => match s with c :: s' => atom_matches a c && k s' | [] => false end
      | Opt => repeat_then a false k s
      | Star => repeat_then a true k s
      | Plus =>
          match s with
          | c :: s' => atom_matches a c && repeat_then a true k s'
          | [] => false
          end
      end
  end.

(** All suffixes of [s], the empty one included. *)
Fixpoint tails (s : list ascii) : list (list ascii) :=
  s :: match s with [] => [] | _ :: s' => tails s' end.

(** [{ $regex: p, $options: 'i' }] on the text [s]: the pattern matches
    somewhere in [s].  [None] when [p] is outside of the fragment. *)
Definition search (p s : string) : option bool :=
  (fun pat => existsb (match_here pat) (tails (JS.chars s)))
    <$> parse (JS.chars p).

End Regex.

(** "[q] occurs as a case-insensitive literal substring of [s]". *)
Fixpoint ci_prefix (q s : list ascii) : bool :=
  match q, s with
  | [], _ => true
  | _ :: _, [] => false
  | a :: q', c :: s' => Ascii.eqb (Regex.lower a) (Regex.lower c) && ci_prefix q' s'
  end.

Definition ci_contains (q s : string) : bool :=
  existsb (ci_prefix (JS.chars q)) (Regex.tails (JS.chars s)).

(** ** Awaited operations and [try]/[catch] *)

Inductive result (A : Type) :=
| Returned (a : A)
| Threw.
Arguments Returned {A} a.
Arguments Threw {A}.

#[global] Instance result_ret : MRet result := fun A a => Returned a.
#[global] Instance result_bind : MBind result := fun A B f r =>
  match r with
  | Returned a => f a
  | Threw => Threw
  end.

#[global] Instance result_fmap : FMap result := fun A B f r =>
  match r with
  | Returned a => Returned (f a)
  | Threw => Threw
  end.

(** A rejected cast or validation. *)
Definition or_throw {A} (o : option A) : result A :=
  match o with
  | Some a => Returned a
  | None => Threw
  end.

Definition try_catch {A} (body : result A) (handler : A) : A :=
  match body with
  | Returned a => a
  | Threw => handler
  end.

(** ** Query conditions *)

(** What the dashboard stores under a key of its filter: the session's
    user id, a query parameter as it came, or
    [{ $regex: pattern, $options: options }]. *)
Inductive cond :=
| CEq (id : option ObjectId)
| CVal (v : JS.qsval)
| CRegex (pattern : JS.qsval) (options : string).

(** What the handlers take from bcrypt, from Mongoose and from the store,
    for the inputs whose treatment is theirs to decide. *)
Class Collaborators := {
  (** the ObjectId a route parameter is cast to ([None]: CastError) *)
  castObjectId : string -> option ObjectId;
  (** the text a body value is cast to for a String path *)
  castString : JS.jsval -> option string;
  (** [bcrypt.hash(password, 10)] with the salt drawn *)
  bcrypt_hash : option JS.jsval -> string -> result string;
  (** [bcrypt.compare(password, hash)] *)
  bcrypt_compare : option JS.jsval -> string -> result bool;
  (** a condition on a Bug path that is neither an equality with a text
      nor a pattern of the fragment of [Regex] *)
  operator_holds : string -> cond -> Bug.t -> bool;
  (** an [email] condition that is not a text *)
  email_operator_holds : option JS.jsval -> User.t -> bool;
  (** the number of documents a [skip] value skips ([None]: rejected) *)
  accept_skip : option JS.jsnum -> option nat
}.

(** [populate('reporter', 'name email')]: the referenced user's [_id],
    [name] and [email], or [null]. *)
Record Populated := {
  doc : Bug.t;
  reporter_doc : option (ObjectId * string * string)
}.

Definition populate (us : list User.t) (b : Bug.t) : Populated :=
  {| doc := b;
     reporter_doc :=
       (fun u => (User._id u, User.name u, User.email u))
         <$> find (fun u => String.eqb (User._id u) (Bug.reporter b)) us |}.

(** ** Responses *)

Inductive View :=
| view_index
| view_register
| view_login
| view_bugs_new
| view_dashboard (bugs : list Populated) (total : nat)
    (page : option JS.jsnum) (pages : nat)
    (filters : option JS.qsval * option JS.qsval * option JS.qsval)
| view_bugs_show (bug : Populated)
| view_bugs_edit (bug : Bug.t) (role : option string)
| view_admin_users (us : list User.t).

(** [res.render(view, locals)], [req.flash(kind, message)] (if any)
    followed by [res.redirect(path)], or [res.status(status).send(text)]. *)
Inductive Response :=
| Render (v : View)
| Redirect (flash : option (string * string)) (path : string)
| Send (status : Z) (text : string).

Definition flash_error (msg path : string) : Response :=
  Redirect (Some ("error", msg)) path.
Definition flash_success (msg path : string) : Response :=
  Redirect (Some ("success", msg)) path.

Inductive Request :=
| GET_index
| GET_register
| POST_register (body : gmap string JS.jsval)
| GET_login
| POST_login (body : gmap string JS.jsval)
| POST_logout
| GET_bugs_new
| POST_bugs (body : gmap string JS.jsval)
| GET_dashboard (query : gmap string JS.qsval)
| GET_bugs_id (id : string)
| GET_bugs_id_edit (id : string)
| PUT_bugs_id (id : string) (body : gmap string JS.jsval)
| GET_admin_users
| GET_setup_create_admin.

Section App.
Context `{Collaborators}.

(** Does the document satisfy the condition stored under [key]?  A path
    that holds no text equals no id and no text, and matches no pattern. *)
Definition cond_holds (key : string) (c : cond) (b : Bug.t) : bool :=
  match c, Bug.path key b with
  | CEq (Some id), Some v => String.eqb v id
  | CEq (Some id), None => false
  | CVal (JS.QStr s), Some v => String.eqb v s
  | CVal (JS.QStr s), None => false
  | CRegex (JS.QStr p) "i", Some v =>
      match Regex.search p v with
      | Some r => r
      | None => operator_holds key c b
      end
  | CRegex (JS.QStr p) "i", None => false
  | _, _ => operator_holds key c b
  end.

(** A document matches a filter when it satisfies each of its entries. *)
Definition matches (filter : gmap string cond) (b : Bug.t) : Prop :=
  map_Forall (fun key c => cond_holds key c b = true) filter.

#[global] Instance matches_dec filter b : Decision (matches filter b).
Proof. unfold matches. apply _. Defined.

(** ** Sorting *)

Definition compare_path (key : string) (a b : Bug.t) : comparison :=
  if String.eqb key "createdAt" then Z.compare (Bug.createdAt a) (Bug.createdAt b)
  else
    match Bug.path key a, Bug.path key b with
    | Some x, Some y => String.compare x y
    | None, Some _ => Lt
    | Some _, None => Gt
    | None, None => Eq
    end.

(** The order of two documents under a sort specification
    [{ key: direction, ... }]: the first key that tells them apart. *)
Fixpoint sort_compare (spec : list (string * Z)) (a b : Bug.t) : comparison :=
  match spec with
  | [] => Eq
  | (key, dir) :: spec' =>
      match compare_path key a b with
      | Eq => sort_compare spec' a b
      | c => if dir <? 0 then CompOpp c else c
      end
  end.

(** [a] may come before [b]. *)
Definition sort_le (spec : list (string * Z)) (a b : Bug.t) : bool :=
  match sort_compare spec a b with Gt => false | _ => true end.

(** The store's sort, taken to keep documents the order does not tell
    apart in the order of the collection. *)
Fixpoint insert_sorted {A} (le : A -> A -> bool) (x : A) (l : list A) : list A :=
  match l with
  | [] => [x]
  | y :: l' => if le x y then x :: l else y :: insert_sorted le x l'
  end.

Definition sort_by {A} (le : A -> A -> bool) (l : list A) : list A :=
  foldr (insert_sorted le) [] l.

Definition sort_bugs (spec : list (string * Z)) (l : list Bug.t) : list Bug.t :=
  sort_by (sort_le spec) l.

(** ** The dashboard query *)

Definition limit : Z := 10.

Definition not_admin (s : Session) : bool :=
  negb (bool_decide (userRole s = Some "admin")).

(** [if (v) filter[key] = mk(v)] *)
Definition set_if (v : option JS.qsval) (key : string) (mk : JS.qsval -> cond)
    (filter : gmap string cond) : gmap string cond :=
  match v with
  | Some x => if JS.truthy v then <[key := mk x]> filter else filter
  | None => filter
  end.

Definition dashboard_filter (s : Session) (query : gmap string JS.qsval)
  : gmap string cond :=
  let q := query !! "q" in
  let status := query !! "status" in
  let severity := query !! "severity" in
  let filter : gmap string cond := ∅ in
  let filter :=
    if not_admin s then <["reporter" := CEq (userId s)]> filter else filter in
  let filter := set_if status "status" CVal filter in
  let filter := set_if severity "severity" CVal filter in
  let filter := set_if q "title" (fun q => CRegex q "i") filter in
  filter.

(** [page = 1] when the parameter is absent; arithmetic coerces it. *)
Definition dashboard_page (query : gmap string JS.qsval) : option JS.jsnum :=
  match query !! "page" with
  | None => Some (JS.Int 1)
  | Some v => JS.ToNumber v
  end.

(** [(page-1)*limit] *)
Definition dashboard_skip (query : gmap string JS.qsval) : option JS.jsnum :=
  page ← dashboard_page query;
  d ← JS.sub page (JS.Int 1);
  JS.mul d (JS.Int limit).

Definition dashboard_sort : list (string * Z) := [("createdAt", -1)].

(** [Bug.find(filter).sort(spec).skip(skip).limit(limit)], before
    [populate]. *)
Definition find_bugs (filter : gmap string cond) (spec : list (string * Z))
    (skip : option JS.jsnum) (lim : Z) (bs : list Bug.t) : result (list Bug.t) :=
  n ← or_throw (accept_skip skip);
  mret (take (Z.to_nat lim)
         (drop n (sort_bugs spec (base.filter (matches filter) bs)))).

Definition countDocuments (filter : gmap string cond) (bs : list Bug.t) : nat :=
  length (base.filter (matches filter) bs).

(** [Math.ceil(total / limit)] *)
Definition pages_of (total : nat) : nat :=
  Z.to_nat ((Z.of_nat total + limit - 1) / limit).

(** ** Middleware *)

(** [!req.session.userId] is false for an id with some text. *)
Definition logged_in (s : Session) : bool :=
  match userId s with
  | Some id => negb (String.eqb id "")
  | None => false
  end.

Definition requireLogin (s : Session) (next : Store -> Response * Store)
  : Store -> Response * Store :=
  fun st =>
    if negb (logged_in s) then (flash_error "You must be logged in" "/login", st)
    else next st.

Definition requireAdmin (s : Session) (next : Store -> Response * Store)
  : Store -> Response * Store :=
  fun st =>
    if negb (logged_in s) || not_admin s
    then (flash_error "Admin access required" "/", st)
    else next st.

(** [String(x)] of a session field. *)
Definition String_of (x : option ObjectId) : string :=
  match x with
  | Some id => id
  | None => "undefined"
  end.

(** ** Store operations *)

Definition email_holds (email : option JS.jsval) (u : User.t) : bool :=
  match email with
  | Some (JS.JStr e) => String.eqb (User.email u) e
  | _ => email_operator_holds email u
  end.

(** [User.findOne({ email })] *)
Definition findOne_email (email : option JS.jsval) (us : list User.t)
  : option User.t :=
  find (email_holds email) us.

(** [Bug.findById(id)] *)
Definition findById (id : string) (bs : list Bug.t) : result (option Bug.t) :=
  oid ← or_throw (castObjectId id);
  mret (find (fun b => String.eqb (Bug._id b) oid) bs).

(** The value a String path takes from what the request supplied:
    [undefined] and [null] are kept, and hold no text; any other value is
    cast. *)
Definition cast_path (v : option JS.jsval) : result (option string) :=
  match v with
  | None | Some JS.JNull => Returned None
  | Some x => Some <$> or_throw (castString x)
  end.

(** [new User({...}).save()]: the paths are cast, the email must be new
    (the unique index) and so must the identifier. *)
Definition save_user (env : Env) (name email : option JS.jsval)
    (passwordHash role : string) (us : list User.t) : result (list User.t) :=
  name ← cast_path name;
  email ← cast_path email;
  match name, email with
  | Some name, Some email =>
      if existsb (fun u => String.eqb (User.email u) email
                           || String.eqb (User._id u) (newId env)) us
      then Threw
      else mret (us ++ [User.mk (newId env) name email passwordHash role (now env)])
  | _, _ => Threw
  end.

(** A path with a default takes it when left undefined (not when given
    as [null]). *)
Definition cast_path_default (dflt : string) (v : option JS.jsval)
  : result (option string) :=
  match v with
  | None => Returned (Some dflt)
  | Some _ => cast_path v
  end.

(** [new Bug({ title, description, severity, reporter })]: casts and
    defaults, then validation. *)
Definition new_Bug (env : Env) (title description severity : option JS.jsval)
    (reporter : option ObjectId) : result Bug.t :=
  title ← cast_path title;
  description ← cast_path description;
  severity ← cast_path_default Bug.severity_default severity;
  match title, reporter with
  | Some title, Some reporter =>
      let b := Bug.mk (newId env) title description severity
                 Bug.status_default reporter (now env) in
      if Bug.valid b then mret b else Threw
  | _, _ => Threw
  end.

Definition insert_bug (b : Bug.t) (bs : list Bug.t) : result (list Bug.t) :=
  if existsb (fun x => String.eqb (Bug._id x) (Bug._id b)) bs then Threw
  else mret (bs ++ [b]).

(** [bug.save()] of a document that was read from the collection: the
    document with its [_id] is replaced. *)
Fixpoint replace_bug (b : Bug.t) (bs : list Bug.t) : list Bug.t :=
  match bs with
  | [] => []
  | x :: bs' =>
      if String.eqb (Bug._id x) (Bug._id b) then b :: bs'
      else x :: replace_bug b bs'
  end.

(** [if (v) bug.path = v]: the new text of the path, cast. *)
Definition assign (v : option JS.jsval) (old : string) : result string :=
  match v with
  | Some x => if JS.truthy_body v then or_throw (castString x) else Returned old
  | None => Returned old
  end.

Definition assign_opt (v : option JS.jsval) (old : option string)
  : result (option string) :=
  match v with
  | Some x =>
      if JS.truthy_body v then Some <$> or_throw (castString x) else Returned old
  | None => Returned old
  end.

(** ** Route handlers *)

Definition read_only (r : Response) : Store -> Response * Store :=
  fun st => (r, st).

(** [POST /register] *)
Definition post_register (env : Env) (body : gmap string JS.jsval)
  : Store -> Response * Store :=
  fun st =>
  try_catch (
    let name := body !! "name" in
    let email := body !! "email" in
    let password := body !! "password" in
    let role := body !! "role" in
    if negb (JS.truthy_body name) || negb (JS.truthy_body email)
       || negb (JS.truthy_body password)
    then mret (flash_error "Please fill all fields" "/register", st)
    else
      match findOne_email email (users st) with
      | Some existing => mret (flash_error "Email already in use" "/register", st)
      | None =>
          passwordHash ← bcrypt_hash password (salt env);
          us ← save_user env name email passwordHash
                  (if JS.strict_eq_str role "admin" then "admin" else "reporter")
                  (users st);
          mret (flash_success "Registered. Please login." "/login",
                {| users := us; bugs := bugs st |})
      end)
    (flash_error "Registration failed" "/register", st).

(** [POST /login] *)
Definition post_login (body : gmap string JS.jsval) (s : Session) (st : Store)
  : Response * Session :=
  try_catch (
    let email := body !! "email" in
    let password := body !! "password" in
    match findOne_email email (users st) with
    | None => mret (flash_error "Please Register First!" "/register", s)
    | Some user =>
        ok ← bcrypt_compare password (User.passwordHash user);
        if negb ok then mret (flash_error "Invalid credentials" "/login", s)
        else
          mret (flash_success "Logged in" "/dashboard",
                {| userId := Some (User._id user);
                   userName := Some (User.name user);
                   userRole := Some (User.role user) |})
    end)
    (flash_error "Login failed" "/login", s).

(** [POST /logout] *)
Definition post_logout (s : Session) : Response * Session :=
  (Redirect None "/", no_session).

(** [POST /bugs] *)
Definition post_bugs (env : Env) (body : gmap string JS.jsval) (s : Session)
  : Store -> Response * Store :=
  requireLogin s (fun st =>
  try_catch (
    let title := body !! "title" in
    let description := body !! "description" in
    let severity := body !! "severity" in
    bug ← new_Bug env title description severity (userId s);
    bs ← insert_bug bug (bugs st);
    mret (flash_success "Bug reported" "/dashboard",
          {| users := users st; bugs := bs |}))
    (flash_error "Failed to report bug" "/bugs/new", st)).

(** [GET /dashboard] *)
Definition get_dashboard (query : gmap string JS.qsval) (s : Session)
  : Store -> Response * Store :=
  requireLogin s (fun st =>
  try_catch (
    let q := query !! "q" in
    let status := query !! "status" in
    let severity := query !! "severity" in
    let filter := dashboard_filter s query in
    found ← find_bugs filter dashboard_sort (dashboard_skip query) limit (bugs st);
    let total := countDocuments filter (bugs st) in
    mret (Render (view_dashboard (map (populate (users st)) found) total
                    (dashboard_page query) (pages_of total)
                    (q, status, severity)), st))
    (flash_error "Could not load dashboard" "/", st)).

(** [GET /bugs/:id] *)
Definition get_bugs_id (id : string) (s : Session) : Store -> Response * Store :=
  requireLogin s (fun st =>
  try_catch (
    found ← findById id (bugs st);
    match found with
    | None => mret (flash_error "Bug not found" "/dashboard", st)
    | Some b =>
        let bug := populate (users st) b in
        denied ←
          (if not_admin s then
             '(rid, _, _) ← or_throw (reporter_doc bug);
             mret (negb (String.eqb rid (String_of (userId s))))
           else mret false);
        if (denied : bool)
        then mret (flash_error "Not authorized to view this bug" "/dashboard", st)
        else mret (Render (view_bugs_show bug), st)
    end)
    (flash_error "Error loading bug" "/dashboard", st)).

(** [GET /bugs/:id/edit] *)
Definition get_bugs_id_edit (id : string) (s : Session)
  : Store -> Response * Store :=
  requireLogin s (fun st =>
  try_catch (
    found ← findById id (bugs st);
    match found with
    | None => mret (flash_error "Bug not found" "/dashboard", st)
    | Some bug =>
        if not_admin s
           && negb (String.eqb (Bug.reporter bug) (String_of (userId s)))
        then mret (flash_error "Not authorized to edit this bug" "/dashboard", st)
        else mret (Render (view_bugs_edit bug (userRole s)), st)
    end)
    (flash_error "Error loading edit form" "/dashboard", st)).

(** [PUT /bugs/:id] *)
Definition put_bugs_id (id : string) (body : gmap string JS.jsval) (s : Session)
  : Store -> Response * Store :=
  requireLogin s (fun st =>
  try_catch (
    let title := body !! "title" in
    let description := body !! "description" in
    let severity := body !! "severity" in
    let status := body !! "status" in
    found ← findById id (bugs st);
    match found with
    | None => mret (flash_error "Bug not found" "/dashboard", st)
    | Some bug =>
        if not_admin s
           && negb (String.eqb (Bug.reporter bug) (String_of (userId s)))
        then mret (flash_error "Not authorized to update this bug" "/dashboard", st)
        else
          title' ← assign title (Bug.title bug);
          description' ← assign_opt description (Bug.description bug);
          severity' ← assign_opt severity (Bug.severity bug);
          status' ← assign status (Bug.status bug);
          let bug' := Bug.mk (Bug._id bug) title' description' severity' status'
                        (Bug.reporter bug) (Bug.createdAt bug) in
          if Bug.valid bug'
          then mret (flash_success "Bug updated" ("/bugs/" +:+ id),
                     {| users := users st; bugs := replace_bug bug' (bugs st) |})
          else Threw
    end)
    (flash_error "Update failed" "/dashboard", st)).

(** [GET /admin/users] *)
Definition get_admin_users (s : Session) : Store -> Response * Store :=
  requireAdmin s (fun st =>
    (Render (view_admin_users
       (sort_by (fun a b => User.createdAt b <=? User.createdAt a) (users st))),
     st)).

(** [GET /setup/create-admin] *)
Definition get_setup_create_admin (env : Env) : Store -> Response * Store :=
  fun st =>
  try_catch (
    match findOne_email (Some (JS.JStr "admin@example.com")) (users st) with
    | Some exists_ =>
        mret (Send 200 "Admin already exists. Delete it and re-run if you want a fresh one.",
              st)
    | None =>
        passwordHash ← bcrypt_hash (Some (JS.JStr "adminpass")) (salt env);
        us ← save_user env (Some (JS.JStr "Admin"))
                (Some (JS.JStr "admin@example.com")) passwordHash "admin"
                (users st);
        mret (Send 200 "Admin created: admin@example.com / adminpass",
              {| users := us; bugs := bugs st |})
    end)
    (Send 500 "Failed to create admin", st).

(** The routes. *)
Definition handle (env : Env) (req : Request) (s : Session) (st : Store)
  : Response * Session * Store :=
  let keep (r : Response * Store) := (r.1, s, r.2) in
  match req with
  | GET_index => (Render view_index, s, st)
  | GET_register => (Render view_register, s, st)
  | POST_register body => keep (post_register env body st)
  | GET_login => (Render view_login, s, st)
  | POST_login body => let r := post_login body s st in (r.1, r.2, st)
  | POST_logout => let r := post_logout s in (r.1, r.2, st)
  | GET_bugs_new => keep (requireLogin s (read_only (Render view_bugs_new)) st)
  | POST_bugs body => keep (post_bugs env body s st)
  | GET_dashboard query => keep (get_dashboard query s st)
  | GET_bugs_id id => keep (get_bugs_id id s st)
  | GET_bugs_id_edit id => keep (get_bugs_id_edit id s st)
  | PUT_bugs_id id body => keep (put_bugs_id id body s st)
  | GET_admin_users => keep (get_admin_users s st)
  | GET_setup_create_admin => keep (get_setup_create_admin env st)
  end.

(** ** The running application *)

(** The store and the sessions the session middleware keeps, by cookie. *)
Record World := {
  store : Store;
  sessions : gmap nat Session
}.

Definition initial : World :=
  {| store := {| users := []; bugs := [] |}; sessions := ∅ |}.

(** A request with the cookie [sid] is handled with that cookie's session
    (a fresh one if there is none). *)
Definition step (env : Env) (req : Request) (sid : nat) (w : World) : World :=
  let s := default no_session (sessions w !! sid) in
  let r := handle env req s (store w) in
  {| store := r.2; sessions := <[sid := r.1.2]> (sessions w) |}.

Inductive reachable : World -> Prop :=
| reachable_initial : reachable initial
| reachable_step env req sid w : reachable w -> reachable (step env req sid w).

End App.

(** The allow / deny outcome of a response: the redirect to the dashboard
    with one of the three "Not authorized" messages is the denial. *)
Definition access_denied (r : Response) : bool :=
  match r with
  | Redirect (Some (kind, msg)) path =>
      String.eqb kind "error" && String.eqb path "/dashboard"
      && bool_decide (msg ∈ ["Not authorized to view this bug";
                             "Not authorized to edit this bug";
                             "Not authorized to update this bug"])
  | _ => false
  end.

(** Every bug refers to a user of the store (users are never deleted, and
    a bug is created for the user of a session: see
    [handle_keeps_references]). *)
Definition store_ok (st : Store) : Prop :=
  Forall (fun b => Bug.reporter b ∈ map User._id (users st)) (bugs st).

(** A logged-in session is that of a user of the store. *)
Definition session_ok (s : Session) (st : Store) : Prop :=
  forall uid, userId s = Some uid -> uid ∈ map User._id (users st).

(** The paths of a bug that no handler assigns. *)
Definition fixed_paths (b : Bug.t) : ObjectId * ObjectId * Z :=
  (Bug._id b, Bug.reporter b, Bug.createdAt b).

(** The submitted value is absent or an empty string. *)
Definition blank (v : option JS.jsval) : Prop :=
  v = None \/ v = Some (JS.JStr "").

(** A pattern without an operator: ASCII characters, none of them a
    metacharacter. *)
Definition plain (q : string) : Prop :=
  Forall (fun c => (JS.code c < 128)%N /\ Regex.is_meta c = false) (JS.chars q).


(** Most recent first. *)
Definition newest_first (l : list Bug.t) : Prop :=
  Sorted (fun a b => Bug.createdAt b <= Bug.createdAt a) l.

(** *** Collaborators to run the handlers with *)

Definition sample_skip (n : option JS.jsnum) : option nat :=
  match n with
  | Some (JS.Int z) => if 0 <=? z then Some (Z.to_nat z) else None
  | _ => None
  end.

(** Identifiers and texts are taken as they are; a "hash" is the salt
    followed by the password. *)
Definition sample_collaborators : Collaborators := {|
  castObjectId id := if String.eqb id "" then None else Some id;
  castString v := match v with JS.JStr t => Some t | _ => None end;
  bcrypt_hash pw salt :=
    match pw with Some (JS.JStr t) => Returned (salt +:+ t) | _ => Threw end;
  bcrypt_compare pw hash :=
    match pw with
    | Some (JS.JStr t) =>
        Returned (String.eqb (substring (String.length hash - String.length t)
                                (String.length t) hash) t)
    | _ => Threw
    end;
  operator_holds _ _ _ := false;
  email_operator_holds _ _ := false;
  accept_skip := sample_skip
|}.

(** The same, with the cast of an id as the driver does it: the text of
    an ObjectId is 24 hexadecimal digits, read without regard to case. *)
Definition hex_id (id : string) : option ObjectId :=
  let l := JS.chars id in
  if (length l =? 24)%nat
     && forallb (fun c => bool_decide (is_Some (JS.digit_of 16 c))) l
  then Some (JS.text (map Regex.lower l))
  else None.

Definition hex_collaborators : Collaborators := {|
  castObjectId := hex_id;
  castString := @castString sample_collaborators;
  bcrypt_hash := @bcrypt_hash sample_collaborators;
  bcrypt_compare := @bcrypt_compare sample_collaborators;
  operator_holds := @operator_holds sample_collaborators;
  email_operator_holds := @email_operator_holds sample_collaborators;
  accept_skip := sample_skip
|}.

(** *** A store to run the handlers on *)

Definition alice : User.t :=
  User.mk "a1" "Alice" "alice@example.com" "s1secret" "reporter" 1000.
Definition bob : User.t :=
  User.mk "b2" "Bob" "bob@example.com" "s2hunter2" "reporter" 2000.
Definition root : User.t :=
  User.mk "c3" "Root" "root@example.com" "s3toor" "admin" 3000.

Definition login_bug : Bug.t :=
  Bug.mk "d4" "Login fails" (Some "Steps to reproduce") (Some "High") "Open"
    "a1" 5000.
Definition crash_bug : Bug.t :=
  Bug.mk "e5" "Crash on save" None (Some "Low") "Open" "b2" 6000.
Definition typo_bug : Bug.t :=
  Bug.mk "f6" "Typo in footer" None (Some "Low") "Closed" "a1" 7000.

Definition sample_store : Store :=
  {| users := [alice; bob; root]; bugs := [login_bug; crash_bug; typo_bug] |}.

(** The session a login of [u] leaves. *)
Definition session_of (u : User.t) : Session :=
  {| userId := Some (User._id u);
     userName := Some (User.name u);
     userRole := Some (User.role u) |}.

Definition sample_env : Env := {| now := 9000; newId := "g7"; salt := "s4" |}.

(** Two bugs filed at the same instant. *)
Definition twin_a : Bug.t :=
  Bug.mk "aa" "First" None (Some "Low") "Open" "a1" 5000.
Definition twin_b : Bug.t :=
  Bug.mk "bb" "Second" None (Some "Low") "Open" "a1" 5000.

(** A registration form, and the application after Carol has registered
    (cookie 0), logged in (cookie 1) and filed a bug. *)
Definition carol_form : gmap string JS.jsval :=
  {[ "name" := JS.JStr "Carol"; "email" := JS.JStr "carol@example.com";
     "password" := JS.JStr "pw" ]}.

Definition carol_world : World :=
  let step := @step sample_collaborators in
  step {| now := 30; newId := "b1"; salt := "s6" |}
       (POST_bugs {[ "title" := JS.JStr "Slow search" ]}) 1%nat
    (step {| now := 20; newId := "x"; salt := "s5" |} (POST_login carol_form) 1%nat
       (step {| now := 10; newId := "u1"; salt := "s4" |}
          (POST_register carol_form) 0%nat initial)).

(** *** Kinds of requests and responses *)

(** The routes declared with [requireLogin]. *)
Definition protected (req : Request) : bool :=
  match req with
  | GET_bugs_new | POST_bugs _ | GET_dashboard _
  | GET_bugs_id _ | GET_bugs_id_edit _ | PUT_bugs_id _ _ => true
  | _ => false
  end.

(** The routes that render a page or a list. *)
Definition page_route (req : Request) : bool :=
  match req with
  | GET_index | GET_register | GET_login | GET_bugs_new | GET_dashboard _
  | GET_bugs_id _ | GET_bugs_id_edit _ | GET_admin_users => true
  | _ => false
  end.

(** The answers of the paths that write: a success flash, or the text sent
    once the admin is created. *)
Definition success_response (r : Response) : bool :=
  match r with
  | Redirect (Some (kind, _)) _ => String.eqb kind "success"
  | Send status text =>
      (status =? 200)
      && String.eqb text "Admin created: admin@example.com / adminpass"
  | _ => false
  end.

(** The parameter is absent or the empty string. *)
Definition blank_param (v : option JS.qsval) : Prop :=
  v = None \/ v = Some (JS.QStr "").

(** * Properties *)

(** ** Generic facts *)

Lemma set_if_lookup_ne v key mk (filter : gmap string cond) k :
  key ≠ k -> set_if v key mk filter !! k = filter !! k.
Proof.
  intros Hne. unfold set_if. destruct v as [x|]; [|done].
  destruct (JS.truthy _); [|done]. by rewrite lookup_insert_ne.
Qed.

Lemma insert_sorted_perm {A} (le : A -> A -> bool) x l :
  insert_sorted le x l ≡ₚ x :: l.
Proof.
  induction l as [|y l IH]; simpl; [done|].
  destruct (le x y); [done|]. rewrite IH. apply Permutation_swap.
Qed.

Lemma sort_by_perm {A} (le : A -> A -> bool) l : sort_by le l ≡ₚ l.
Proof.
  induction l as [|x l IH]; simpl; [done|].
  unfold sort_by in *. simpl. rewrite insert_sorted_perm. by rewrite IH.
Qed.

Section Properties.
Context `{Collaborators}.

Lemma find_bugs_matches filter spec skip lim bs found b :
  find_bugs filter spec skip lim bs = Returned found ->
  b ∈ found -> b ∈ bs /\ matches filter b.
Proof.
  unfold find_bugs. destruct (accept_skip skip) as [n|]; simpl; [|done].
  intros [= <-] Hin.
  apply subseteq_take, subseteq_drop in Hin.
  unfold sort_bugs in Hin. rewrite sort_by_perm in Hin.
  by apply list_elem_of_filter in Hin as [? ?].
Qed.

(** C1. The dashboard filter holds the constraint [reporter == userId]
    exactly when the session's role is not admin, whatever the query
    parameters are: for a non-admin every bug the filter matches, and
    every bug the dashboard renders, is reported by the session's user;
    for an admin the filter has no [reporter] entry. *)
Theorem dashboard_reporter_scoping (s : Session) (query : gmap string JS.qsval) :
  dashboard_filter s query !! "reporter"
    = (if bool_decide (userRole s = Some "admin") then None
       else Some (CEq (userId s)))
  /\ forall uid,
       userRole s ≠ Some "admin" -> userId s = Some uid ->
       (forall b, matches (dashboard_filter s query) b -> Bug.reporter b = uid)
       /\ (forall st found total page pages filters st',
             get_dashboard query s st
               = (Render (view_dashboard found total page pages filters), st') ->
             Forall (fun p => Bug.reporter (doc p) = uid) found).
Proof.
  assert (Hlook : dashboard_filter s query !! "reporter"
    = (if bool_decide (userRole s = Some "admin") then None
       else Some (CEq (userId s)))).
  { unfold dashboard_filter, not_admin.
    rewrite !set_if_lookup_ne by done.
    case_bool_decide; simpl; [done|]. by rewrite lookup_insert_eq. }
  split; [exact Hlook|].
  intros uid Hrole Hid.
  assert (Hscope : forall b, matches (dashboard_filter s query) b ->
                             Bug.reporter b = uid).
  { intros b Hm. rewrite bool_decide_eq_false_2 in Hlook by done.
    specialize (Hm _ _ Hlook). simpl in Hm. rewrite Hid in Hm.
    unfold cond_holds in Hm. simpl in Hm. by apply String.eqb_eq in Hm. }
  split; [exact Hscope|].
  intros st found total page pages filters st'.
  unfold get_dashboard, requireLogin.
  destruct (negb (logged_in s)); [done|].
  destruct (find_bugs _ _ _ _ _) as [l|] eqn:Hfind; simpl; [|done].
  intros [= <- _ _ _ _ _].
  apply Forall_forall. intros p Hp.
  apply list_elem_of_fmap in Hp as (b & -> & Hb). simpl.
  apply Hscope. by eapply find_bugs_matches.
Qed.

(** *** Pagination *)




(** *** Looking a bug up, then deciding *)

Lemma find_id_elem_of {A} (f : A -> string) (x : string) (l : list A) :
  x ∈ map f l ->
  exists u, find (fun u => String.eqb (f u) x) l = Some u /\ f u = x.
Proof.
  induction l as [|a l IH]; simpl.
  - by intros ?%elem_of_nil.
  - intros Hin. destruct (String.eqb_spec (f a) x) as [Heq|Hne]; [by eauto|].
    apply elem_of_cons in Hin as [->|Hin]; [done|]. by apply IH.
Qed.

Lemma findById_elem_of id bs b :
  findById id bs = Returned (Some b) -> b ∈ bs.
Proof.
  unfold findById. destruct (castObjectId id); simpl; [|done].
  intros [= Hf]. apply find_some in Hf as [Hin _]. by apply list_elem_of_In.
Qed.

(** "No bug with that id exists": for an id that casts, the lookup
    returns [null] exactly when no stored bug has it. *)
Lemma findById_none id oid bs :
  castObjectId id = Some oid ->
  findById id bs = Returned None <-> oid ∉ map Bug._id bs.
Proof.
  intros Hc. unfold findById. rewrite Hc. simpl. split.
  - intros [= Hf] Hin. apply list_elem_of_fmap in Hin as (b & -> & Hb).
    apply list_elem_of_In in Hb.
    pose proof (find_none _ _ Hf b Hb) as Hne. simpl in Hne.
    by rewrite String.eqb_refl in Hne.
  - intros Hnot. destruct (find _ bs) as [b|] eqn:Hf; [|done].
    apply find_some in Hf as [Hin Heq%String.eqb_eq].
    exfalso. apply Hnot. apply list_elem_of_fmap. exists b.
    split; [done|]. by apply list_elem_of_In.
Qed.

Lemma logged_in_userId s :
  logged_in s = true -> exists uid, userId s = Some uid /\ String_of (userId s) = uid.
Proof. unfold logged_in. destruct (userId s); [by eauto|done]. Qed.

Ltac assign_cases :=
  repeat match goal with
  | |- context [assign ?v ?old] => destruct (assign v old); simpl
  | |- context [assign_opt ?v ?old] => destruct (assign_opt v old); simpl
  | |- context [Bug.valid ?b] => destruct (Bug.valid b); simpl
  end.

(** Past the authorization check, the update answers "Bug updated" or
    "Update failed". *)
Lemma update_not_denied (id : string) (body : gmap string JS.jsval)
    (st : Store) (b : Bug.t) :
  access_denied
    (try_catch
       (title' ← assign (body !! "title") (Bug.title b);
        description' ← assign_opt (body !! "description") (Bug.description b);
        severity' ← assign_opt (body !! "severity") (Bug.severity b);
        status' ← assign (body !! "status") (Bug.status b);
        let bug' := Bug.mk (Bug._id b) title' description' severity' status'
                      (Bug.reporter b) (Bug.createdAt b) in
        if Bug.valid bug'
        then mret (flash_success "Bug updated" ("/bugs/" +:+ id),
                   {| users := users st; bugs := replace_bug bug' (bugs st) |})
        else Threw)
       (flash_error "Update failed" "/dashboard", st)).1 = false.
Proof. assign_cases; reflexivity. Qed.

(** C5, as the code has it. For the view, the edit form and the update,
    a logged-in request for an id that casts to an ObjectId which no bug
    has is answered "Bug not found", whatever the session's role, before
    any authorization test, and the store is untouched; for an id that
    does not cast, the lookup throws and each handler answers from its
    [catch] block; an access denial is only ever the answer for a bug
    that exists. *)
Theorem not_found_before_authorization
    (id : string) (body : gmap string JS.jsval) (s : Session) (st : Store) :
  (logged_in s = true ->
     (forall oid, castObjectId id = Some oid -> oid ∉ map Bug._id (bugs st) ->
        get_bugs_id id s st = (flash_error "Bug not found" "/dashboard", st)
        /\ get_bugs_id_edit id s st
           = (flash_error "Bug not found" "/dashboard", st)
        /\ put_bugs_id id body s st
           = (flash_error "Bug not found" "/dashboard", st))
     /\ (castObjectId id = None ->
         get_bugs_id id s st = (flash_error "Error loading bug" "/dashboard", st)
         /\ get_bugs_id_edit id s st
            = (flash_error "Error loading edit form" "/dashboard", st)
         /\ put_bugs_id id body s st
            = (flash_error "Update failed" "/dashboard", st)))
  /\ (access_denied (get_bugs_id id s st).1 = true
      \/ access_denied (get_bugs_id_edit id s st).1 = true
      \/ access_denied (put_bugs_id id body s st).1 = true ->
      exists b, findById id (bugs st) = Returned (Some b) /\ b ∈ bugs st).
Proof.
  split.
  - intros Hin. split.
    + intros oid Hc Hnone.
      pose proof (proj2 (findById_none id oid (bugs st) Hc) Hnone) as Hfind.
      unfold get_bugs_id, get_bugs_id_edit, put_bugs_id, requireLogin.
      rewrite Hin, Hfind. done.
    + intros Hc.
      unfold get_bugs_id, get_bugs_id_edit, put_bugs_id, requireLogin, findById.
      rewrite Hin, Hc. done.
  - unfold get_bugs_id, get_bugs_id_edit, put_bugs_id, requireLogin.
    destruct (negb (logged_in s)); [by intros [|[|]]|].
    destruct (findById id (bugs st)) as [[b|]|] eqn:Hfind; simpl;
      [|by intros [|[|]]..].
    intros _. exists b. split; [done|]. by eapply findById_elem_of.
Qed.

(** C2. For a logged-in session and a bug that exists, the view, the edit
    form and the update decide by one predicate: each of them denies
    access exactly when the session's role is not admin and the bug's
    reporter is not the session's user, and the view and the edit form
    are rendered otherwise. *)
Theorem one_policy_for_view_edit_update
    (id : string) (body : gmap string JS.jsval) (s : Session) (st : Store)
    (b : Bug.t) :
  logged_in s = true -> store_ok st ->
  findById id (bugs st) = Returned (Some b) ->
  let allowed := bool_decide (userRole s = Some "admin")
                 || bool_decide (userId s = Some (Bug.reporter b)) in
  access_denied (get_bugs_id id s st).1 = negb allowed
  /\ access_denied (get_bugs_id_edit id s st).1 = negb allowed
  /\ access_denied (put_bugs_id id body s st).1 = negb allowed
  /\ (allowed = true ->
      (get_bugs_id id s st).1 = Render (view_bugs_show (populate (users st) b))
      /\ (get_bugs_id_edit id s st).1 = Render (view_bugs_edit b (userRole s))).
Proof.
  intros Hin Hok Hfind allowed.
  pose proof (findById_elem_of _ _ _ Hfind) as Hb.
  unfold store_ok in Hok. rewrite Forall_forall in Hok.
  destruct (find_id_elem_of User._id _ _ (Hok _ Hb)) as (u & Hu & Hid).
  destruct (logged_in_userId _ Hin) as (uid & Huid & Hstr).
  assert (Hown : String.eqb (Bug.reporter b) uid
                 = bool_decide (userId s = Some (Bug.reporter b))).
  { rewrite Huid. destruct (String.eqb_spec (Bug.reporter b) uid) as [->|Hne].
    - by rewrite bool_decide_eq_true_2.
    - rewrite bool_decide_eq_false_2; [done|]. by intros [= ->]. }
  unfold get_bugs_id, get_bugs_id_edit, put_bugs_id, requireLogin.
  rewrite Hin, Hfind. simpl.
  unfold populate at 1. rewrite Hu. simpl.
  rewrite Hstr, Hid, Hown. subst allowed. unfold not_admin.
  destruct (bool_decide (userRole s = Some "admin")); simpl.
  - repeat split; try done. apply update_not_denied.
  - destruct (bool_decide (userId s = Some (Bug.reporter b))); simpl.
    + repeat split; try done. apply update_not_denied.
    + repeat split; done.
Qed.

(** *** The title search *)

Lemma not_meta_atom c :
  (JS.code c < 128)%N -> Regex.is_meta c = false ->
  Regex.atom_of c = Some (Regex.Lit c) /\ Regex.quant_of c = None.
Proof.
  intros Hc Hm. unfold Regex.is_meta in Hm. apply bool_decide_eq_false in Hm.
  unfold Regex.atom_of, Regex.quant_of, Regex.is_meta.
  destruct (N.leb_spec 128 (JS.code c)); [lia|].
  rewrite (bool_decide_eq_false_2 _ Hm).
  destruct (Ascii.eqb_spec c "."%char) as [->|_];
    [exfalso; apply Hm; vm_compute; set_solver|].
  destruct (Ascii.eqb_spec c "*"%char) as [->|_];
    [exfalso; apply Hm; vm_compute; set_solver|].
  destruct (Ascii.eqb_spec c "+"%char) as [->|_];
    [exfalso; apply Hm; vm_compute; set_solver|].
  destruct (Ascii.eqb_spec c "?"%char) as [->|_];
    [exfalso; apply Hm; vm_compute; set_solver|].
  done.
Qed.

(** A pattern without operators is the sequence of its characters. *)
Lemma parse_plain (l : list ascii) :
  Forall (fun c => (JS.code c < 128)%N /\ Regex.is_meta c = false) l ->
  Regex.parse l = Some (map (fun c => (Regex.Lit c, Regex.One)) l).
Proof.
  induction 1 as [|c l [Hc Hm] Hl IH]; [done|].
  cbn [Regex.parse]. destruct (not_meta_atom c Hc Hm) as [-> _].
  destruct Hl as [|d l [Hd Hdm] Hl]; [done|].
  destruct (not_meta_atom d Hd Hdm) as [_ ->].
  rewrite IH. done.
Qed.

Lemma match_here_literal (q s : list ascii) :
  Regex.match_here (map (fun c => (Regex.Lit c, Regex.One)) q) s = ci_prefix q s.
Proof.
  revert s. induction q as [|a q IH]; intros s; [done|].
  destruct s as [|c s]; simpl; [done|]. by rewrite IH.
Qed.

Lemma existsb_pointwise {A} (f g : A -> bool) (l : list A) :
  (forall x, f x = g x) -> existsb f l = existsb g l.
Proof. intros Hfg. induction l as [|x l IH]; simpl; [done|]. by rewrite Hfg, IH. Qed.

Lemma search_plain (q t : string) :
  plain q -> Regex.search q t = Some (ci_contains q t).
Proof.
  intros Hq. unfold Regex.search, ci_contains.
  rewrite (parse_plain _ Hq). simpl. f_equal.
  apply existsb_pointwise. intros s. apply match_here_literal.
Qed.

(** C4, as the code has it. A non-empty [q] is stored as the pattern of a
    case-insensitive regular expression on the title, so the condition
    holds when the pattern matches somewhere in the title; for a [q]
    without metacharacters that is the case-insensitive literal substring
    test. *)
Theorem title_search_is_a_pattern
    (s : Session) (query : gmap string JS.qsval) (q : string) :
  query !! "q" = Some (JS.QStr q) -> q ≠ "" ->
  dashboard_filter s query !! "title" = Some (CRegex (JS.QStr q) "i")
  /\ (forall b found, Regex.search q (Bug.title b) = Some found ->
        cond_holds "title" (CRegex (JS.QStr q) "i") b = found)
  /\ (plain q -> forall b,
        cond_holds "title" (CRegex (JS.QStr q) "i") b
          = ci_contains q (Bug.title b)).
Proof.
  intros Hq Hne. split; [|split].
  - unfold dashboard_filter. rewrite Hq. unfold set_if at 1. simpl.
    destruct (String.eqb_spec q "") as [|_]; [done|]. simpl.
    by rewrite lookup_insert_eq.
  - intros b found Hs. unfold cond_holds. simpl. by rewrite Hs.
  - intros Hp b. unfold cond_holds. simpl. by rewrite search_plain.
Qed.

(** *** The order of the list *)

Lemma insert_sorted_strongly {A} (le : A -> A -> bool) (R : relation A)
    `{!Transitive R} (x : A) (l : list A) :
  (forall a b, le a b = true -> R a b) ->
  (forall a b, le a b = false -> R b a) ->
  StronglySorted R l -> StronglySorted R (insert_sorted le x l).
Proof.
  intros Ht Hf. induction 1 as [|y l Hl IH Hy]; simpl.
  - by repeat constructor.
  - destruct (le x y) eqn:Hxy.
    + constructor; [by constructor|].
      constructor; [by apply Ht|].
      eapply Forall_impl; [exact Hy|]. intros z Hz.
      by transitivity y; [apply Ht|].
    + constructor; [done|].
      rewrite insert_sorted_perm. constructor; [by apply Hf|done].
Qed.

Lemma sort_by_strongly {A} (le : A -> A -> bool) (R : relation A)
    `{!Transitive R} (l : list A) :
  (forall a b, le a b = true -> R a b) ->
  (forall a b, le a b = false -> R b a) ->
  StronglySorted R (sort_by le l).
Proof.
  intros Ht Hf. induction l as [|x l IH]; [constructor|].
  by apply insert_sorted_strongly.
Qed.

Lemma dashboard_sort_compare (a b : Bug.t) :
  sort_compare dashboard_sort a b = CompOpp (Bug.createdAt a ?= Bug.createdAt b).
Proof.
  unfold dashboard_sort, sort_compare, compare_path. simpl.
  by destruct (Bug.createdAt a ?= Bug.createdAt b).
Qed.

Lemma dashboard_sort_le (a b : Bug.t) :
  sort_le dashboard_sort a b = true <-> Bug.createdAt b <= Bug.createdAt a.
Proof.
  unfold sort_le. rewrite dashboard_sort_compare.
  destruct (Z.compare_spec (Bug.createdAt a) (Bug.createdAt b)); simpl;
    split; (done || lia).
Qed.

#[local] Instance newest_first_trans :
  Transitive (fun a b : Bug.t => Bug.createdAt b <= Bug.createdAt a).
Proof. intros a b c. simpl. lia. Qed.

Lemma find_bugs_newest_first filter skip lim bs found :
  find_bugs filter dashboard_sort skip lim bs = Returned found ->
  newest_first found.
Proof.
  unfold find_bugs. destruct (accept_skip skip) as [n|]; simpl; [|done].
  intros [= <-]. apply StronglySorted_Sorted.
  set (l := sort_bugs _ _).
  assert (Hl : StronglySorted
                 (fun a b => Bug.createdAt b <= Bug.createdAt a) l).
  { apply sort_by_strongly; [apply _|..].
    - intros a b. apply dashboard_sort_le.
    - intros a b Hab.
      destruct (Z.le_gt_cases (Bug.createdAt a) (Bug.createdAt b)); [done|].
      assert (sort_le dashboard_sort a b = true); [|congruence].
      apply dashboard_sort_le. lia. }
  rewrite <- (take_drop n l) in Hl. apply StronglySorted_app_1_r in Hl.
  rewrite <- (take_drop (Z.to_nat lim) (drop n l)) in Hl.
  by apply StronglySorted_app_1_l in Hl.
Qed.

(** C6, as the code has it. The dashboard list is ordered descending by
    creation timestamp, most recent first; that is the only key of the
    sort, which compares two bugs as equal exactly when their creation
    timestamps are equal, whatever their identifiers. *)
Theorem dashboard_newest_first
    (query : gmap string JS.qsval) (s : Session) (st st' : Store)
    (found : list Populated) (total : nat) (page : option JS.jsnum)
    (pages : nat) (filters : option JS.qsval * option JS.qsval * option JS.qsval) :
  get_dashboard query s st
    = (Render (view_dashboard found total page pages filters), st') ->
  newest_first (map doc found)
  /\ (forall a b, sort_compare dashboard_sort a b = Eq
                  <-> Bug.createdAt a = Bug.createdAt b).
Proof.
  intros Hget. split.
  - revert Hget. unfold get_dashboard, requireLogin.
    destruct (negb (logged_in s)); [done|].
    destruct (find_bugs _ _ _ _ _) as [l|] eqn:Hfind; simpl; [|done].
    intros [= <- _ _ _ _ _].
    rewrite map_map. simpl. rewrite map_id.
    by eapply find_bugs_newest_first.
  - intros a b. rewrite dashboard_sort_compare.
    destruct (Z.compare_spec (Bug.createdAt a) (Bug.createdAt b)); simpl;
      split; (done || lia).
Qed.

(** *** What the handlers write *)

Lemma replace_bug_Forall2 (R : relation Bug.t) (oid : ObjectId)
    (b b' : Bug.t) (bs : list Bug.t) :
  (forall x, R x x) ->
  find (fun x => String.eqb (Bug._id x) oid) bs = Some b ->
  Bug._id b' = oid -> R b b' ->
  Forall2 R bs (replace_bug b' bs).
Proof.
  intros Hrefl Hfind Hid HR. induction bs as [|x bs IH]; simpl in *; [done|].
  rewrite Hid. destruct (String.eqb (Bug._id x) oid).
  - injection Hfind as ->. constructor; [done|]. by apply Forall_Forall2_diag, Forall_true.
  - constructor; [done|]. by apply IH.
Qed.

Lemma Forall2_fixed_paths (l l' : list Bug.t) :
  Forall2 (fun x y => fixed_paths x = fixed_paths y) l l' ->
  map fixed_paths l = map fixed_paths l'.
Proof. induction 1; simpl; congruence. Qed.

Lemma assign_blank v old : blank v -> assign v old = Returned old.
Proof. by intros [-> | ->]. Qed.

Lemma assign_opt_blank v old : blank v -> assign_opt v old = Returned old.
Proof. by intros [-> | ->]. Qed.

(** The update leaves the store as it is, or replaces the bug it found by
    that bug with the four paths assigned. *)
Lemma put_bugs_id_cases (id : string) (body : gmap string JS.jsval)
    (s : Session) (st : Store) :
  (put_bugs_id id body s st).2 = st
  \/ exists oid b title' description' severity' status',
       find (fun x => String.eqb (Bug._id x) oid) (bugs st) = Some b
       /\ assign (body !! "title") (Bug.title b) = Returned title'
       /\ assign_opt (body !! "description") (Bug.description b)
          = Returned description'
       /\ assign_opt (body !! "severity") (Bug.severity b) = Returned severity'
       /\ assign (body !! "status") (Bug.status b) = Returned status'
       /\ (put_bugs_id id body s st).2
          = {| users := users st;
               bugs := replace_bug
                         (Bug.mk oid title' description' severity' status'
                            (Bug.reporter b) (Bug.createdAt b))
                         (bugs st) |}.
Proof.
  unfold put_bugs_id, requireLogin, findById.
  destruct (negb (logged_in s)); [by left|].
  destruct (castObjectId id) as [oid|]; simpl; [|by left].
  destruct (find _ (bugs st)) as [b|] eqn:Hfind; simpl; [|by left].
  destruct (not_admin s && _); [by left|].
  destruct (assign (body !! "title") _) as [title'|] eqn:Ht; simpl; [|by left].
  destruct (assign_opt (body !! "description") _) as [description'|] eqn:Hd;
    simpl; [|by left].
  destruct (assign_opt (body !! "severity") _) as [severity'|] eqn:Hv; simpl;
    [|by left].
  destruct (assign (body !! "status") _) as [status'|] eqn:Hs; simpl; [|by left].
  destruct (Bug.valid _); simpl; [|by left].
  right. exists oid, b, title', description', severity', status'.
  pose proof Hfind as [_ ->%String.eqb_eq]%find_some. done.
Qed.

(** Creating a bug leaves the store as it is, or appends a bug with the
    new identifier, the session's user as reporter and the time of the
    request. *)
Lemma post_bugs_cases (env : Env) (body : gmap string JS.jsval)
    (s : Session) (st : Store) :
  (post_bugs env body s st).2 = st
  \/ exists uid b,
       userId s = Some uid
       /\ fixed_paths b = (newId env, uid, now env)
       /\ (post_bugs env body s st).2
          = {| users := users st; bugs := bugs st ++ [b] |}.
Proof.
  unfold post_bugs, requireLogin, new_Bug, insert_bug.
  destruct (negb (logged_in s)); [by left|].
  destruct (cast_path (body !! "title")) as [[title|]|]; simpl; try by left.
  - destruct (cast_path (body !! "description")) as [description|]; simpl;
      [|by left].
    destruct (cast_path_default _ (body !! "severity")) as [severity|]; simpl;
      [|by left].
    destruct (userId s) as [uid|]; simpl; [|by left].
    destruct (Bug.valid _); simpl; [|by left].
    destruct (existsb _ _); simpl; [by left|].
    right. exists uid. eexists. split; [done|]. split; [|reflexivity]. done.
  - destruct (cast_path (body !! "description")) as [description|]; simpl;
      [|by left].
    by destruct (cast_path_default _ (body !! "severity")) as [severity|];
      simpl; left.
Qed.

(** Registering leaves the store as it is, or appends a user whose role
    is decided by the comparison with ["admin"]. *)
Lemma post_register_cases (env : Env) (body : gmap string JS.jsval) (st : Store) :
  (post_register env body st).2 = st
  \/ exists name email hash,
       (post_register env body st).2
       = {| users := users st ++
                     [User.mk (newId env) name email hash
                        (if JS.strict_eq_str (body !! "role") "admin"
                         then "admin" else "reporter")
                        (now env)];
            bugs := bugs st |}.
Proof.
  unfold post_register, save_user.
  destruct (_ || _); [by left|].
  destruct (findOne_email _ _); [by left|].
  destruct (bcrypt_hash _ _) as [hash|]; simpl; [|by left].
  destruct (cast_path (body !! "name")) as [[name|]|]; simpl; try by left.
  - destruct (cast_path (body !! "email")) as [[email|]|]; simpl; try by left.
    destruct (existsb _ _); simpl; [by left|].
    right. by exists name, email, hash.
  - by destruct (cast_path (body !! "email")) as [[email|]|]; simpl; left.
Qed.

Lemma get_setup_create_admin_cases (env : Env) (st : Store) :
  (get_setup_create_admin env st).2 = st
  \/ exists u,
       (get_setup_create_admin env st).2
       = {| users := users st ++ [u]; bugs := bugs st |}.
Proof.
  unfold get_setup_create_admin, save_user.
  destruct (findOne_email _ _); [by left|].
  destruct (bcrypt_hash _ _) as [hash|]; simpl; [|by left].
  destruct (castString (JS.JStr "Admin")) as [name|]; simpl; [|by left].
  destruct (castString (JS.JStr "admin@example.com")) as [email|]; simpl;
    [|by left].
  destruct (existsb _ _); simpl; [by left|].
  right. by eexists.
Qed.

(** What a request can do to the store: nothing, append a user, append a
    bug reported by the session's user, or rewrite bugs in place without
    touching their fixed paths. *)
Lemma handle_store_cases (env : Env) (req : Request) (s : Session) (st : Store) :
  (handle env req s st).2 = st
  \/ (exists u,
        (handle env req s st).2
        = {| users := users st ++ [u]; bugs := bugs st |})
  \/ (exists body uid b,
        req = POST_bugs body /\ userId s = Some uid
        /\ fixed_paths b = (newId env, uid, now env)
        /\ (handle env req s st).2
           = {| users := users st; bugs := bugs st ++ [b] |})
  \/ (exists bs,
        map fixed_paths bs = map fixed_paths (bugs st)
        /\ (handle env req s st).2 = {| users := users st; bugs := bs |}).
Proof.
  destruct req as [| |body| |body| | |body|query|id|id|id body| |]; simpl;
    try by left.
  - destruct (post_register_cases env body st) as [->|(? & ? & ? & ->)];
      [by left|]. right; left. by eexists.
  - unfold requireLogin, read_only. by destruct (negb _); left.
  - destruct (post_bugs_cases env body s st) as [->|(uid & b & Hu & Hb & ->)];
      [by left|].
    right; right; left. by exists body, uid, b.
  - left. unfold get_dashboard, requireLogin.
    destruct (negb _); [done|]. by destruct (find_bugs _ _ _ _ _).
  - left. unfold get_bugs_id, requireLogin. destruct (negb _); [done|].
    destruct (findById _ _) as [[b|]|]; simpl; [|done..].
    destruct (not_admin s); simpl; [|done].
    destruct (find _ (users st)) as [u|]; simpl; [|done].
    by destruct (negb _).
  - left. unfold get_bugs_id_edit, requireLogin. destruct (negb _); [done|].
    destruct (findById _ _) as [[b|]|]; simpl; [|done..].
    by destruct (_ && _).
  - destruct (put_bugs_id_cases id body s st)
      as [->|(oid & b & t & d & v & u & Hfind & _ & _ & _ & _ & ->)];
      [by left|].
    right; right; right. eexists. split; [|done].
    symmetry. apply Forall2_fixed_paths.
    eapply replace_bug_Forall2; [done|exact Hfind|done|].
    unfold fixed_paths. simpl.
    by apply find_some in Hfind as [_ ->%String.eqb_eq].
  - unfold get_admin_users, requireAdmin. by destruct (_ || _); left.
  - destruct (get_setup_create_admin_cases env st) as [->|(u & ->)];
      [by left|]. right; left. by eexists.
Qed.

(** C7. A bug created by [POST /bugs] has the creating session's user as
    its reporter, whatever the body holds, and no request changes the
    reporter (nor the identifier or the creation time) of a stored bug:
    after any request the stored bugs have the reporters they had, with at
    most the created bug appended. *)
Theorem reporter_set_once (env : Env) (req : Request) (s : Session) (st : Store) :
  map fixed_paths (bugs (handle env req s st).2) = map fixed_paths (bugs st)
  \/ exists body uid,
       req = POST_bugs body /\ userId s = Some uid
       /\ map fixed_paths (bugs (handle env req s st).2)
          = map fixed_paths (bugs st) ++ [(newId env, uid, now env)].
Proof.
  destruct (handle_store_cases env req s st)
    as [->|[(u & ->)|[(body & uid & b & -> & Hu & Hb & ->)|(bs & Hbs & ->)]]];
    simpl; [by left|by left| |by left].
  right. exists body, uid. repeat split; [done|].
  by rewrite map_app, <- Hb.
Qed.

(** *** References stay valid *)

Lemma store_ok_fixed_paths (us : list User.t) (bs bs' : list Bug.t) :
  map fixed_paths bs' = map fixed_paths bs ->
  store_ok {| users := us; bugs := bs |} ->
  store_ok {| users := us; bugs := bs' |}.
Proof.
  unfold store_ok. simpl. intros Heq Hok.
  assert (Hr : map Bug.reporter bs' = map Bug.reporter bs).
  { apply (f_equal (map (fun p : ObjectId * ObjectId * Z => p.1.2))) in Heq.
    by rewrite !map_map in Heq. }
  apply Forall_forall. intros b Hb.
  assert (Hin : Bug.reporter b ∈ map Bug.reporter bs).
  { rewrite <- Hr. apply list_elem_of_fmap. by exists b. }
  apply list_elem_of_fmap in Hin as (b0 & -> & Hb0).
  rewrite Forall_forall in Hok. by apply Hok.
Qed.

(** The handlers keep every bug's reporter, and every session's user,
    among the stored users: from a store and a session where this holds,
    it holds after any request, for the requesting session and for any
    other. *)
Lemma handle_keeps_references (env : Env) (req : Request) (s : Session)
    (st : Store) :
  store_ok st -> session_ok s st ->
  store_ok (handle env req s st).2
  /\ session_ok (handle env req s st).1.2 (handle env req s st).2
  /\ (forall s0, session_ok s0 st -> session_ok s0 (handle env req s st).2).
Proof.
  intros Hst Hs.
  assert (Hgrow : forall s0, session_ok s0 st ->
                             session_ok s0 (handle env req s st).2).
  { intros s0 Hs0 uid Hu. specialize (Hs0 uid Hu).
    destruct (handle_store_cases env req s st)
      as [->|[(u & ->)|[(body & uid' & b & -> & _ & _ & ->)|(bs & _ & ->)]]];
      simpl; try done.
    rewrite map_app. apply elem_of_app. by left. }
  split; [|split; [|done]].
  - destruct (handle_store_cases env req s st)
      as [->|[(u & ->)|[(body & uid & b & -> & Hu & Hb & ->)|(bs & Hbs & ->)]]];
      [done| | |].
    + unfold store_ok in *. simpl. eapply Forall_impl; [exact Hst|].
      intros b Hb. simpl in Hb. rewrite map_app. apply elem_of_app. by left.
    + unfold store_ok in *. simpl. apply Forall_app. split; [done|].
      constructor; [|constructor]. injection Hb as _ -> _. by apply Hs.
    + destruct st as [us bs0]. by eapply store_ok_fixed_paths.
  - destruct req as [| |body| |body| | |body|query|id|id|id body| |];
      try by apply Hgrow.
    simpl. unfold post_login.
      destruct (findOne_email _ _) as [u|] eqn:Hu; simpl; [|done].
      destruct (bcrypt_compare _ _) as [[|]|]; simpl; [|done..].
      intros uid [= <-]. apply find_some in Hu as [Hin _].
      apply list_elem_of_fmap. exists u. split; [done|].
      by apply list_elem_of_In.
Qed.

(** In every state the application reaches, each bug's reporter and each
    session's user is a stored user. *)
Lemma reachable_references (w : World) :
  reachable w ->
  store_ok (store w)
  /\ forall sid s, sessions w !! sid = Some s -> session_ok s (store w).
Proof.
  induction 1 as [|env req sid w _ [Hst Hss]].
  - split; [by constructor|]. by intros sid s.
  - set (s := default no_session (sessions w !! sid)).
    assert (Hs : session_ok s (store w)).
    { subst s. destruct (sessions w !! sid) as [s|] eqn:Hsid; simpl.
      - by eapply Hss.
      - by intros uid. }
    destruct (handle_keeps_references env req s (store w) Hst Hs)
      as (Hst' & Hs' & Hothers).
    split; [exact Hst'|]. intros sid' s'. unfold step. simpl.
    destruct (decide (sid = sid')) as [->|Hne].
    + rewrite lookup_insert_eq. by intros [= <-].
    + rewrite lookup_insert_ne by done. intros Hsid'.
      apply Hothers. by eapply Hss.
Qed.

(** C10. An update leaves each of title, description, severity and status
    at its stored value when the submitted value for it is absent or the
    empty string; so a description is not cleared by submitting an empty
    one. *)
Theorem blank_fields_are_kept
    (id : string) (body : gmap string JS.jsval) (s : Session) (st : Store) :
  Forall2
    (fun b b' =>
       (blank (body !! "title") -> Bug.title b' = Bug.title b)
       /\ (blank (body !! "description") ->
           Bug.description b' = Bug.description b)
       /\ (blank (body !! "severity") -> Bug.severity b' = Bug.severity b)
       /\ (blank (body !! "status") -> Bug.status b' = Bug.status b))
    (bugs st) (bugs (put_bugs_id id body s st).2).
Proof.
  destruct (put_bugs_id_cases id body s st)
    as [->|(oid & b & t & d & v & u & Hfind & Ht & Hd & Hv & Hu & ->)].
  - by apply Forall_Forall2_diag, Forall_true.
  - simpl. eapply replace_bug_Forall2; [done|exact Hfind|done|]. simpl.
    repeat split; intros Hb.
    + rewrite assign_blank in Ht by done. congruence.
    + rewrite assign_opt_blank in Hd by done. congruence.
    + rewrite assign_opt_blank in Hv by done. congruence.
    + rewrite assign_blank in Hu by done. congruence.
Qed.

(** *** Registration and login *)

(** C9. The user a registration stores has role ["admin"] exactly when
    the submitted role is the string ["admin"], and role ["reporter"] for
    any other submitted value and for an absent one. *)
Theorem registered_role (env : Env) (body : gmap string JS.jsval) (st : Store) :
  (post_register env body st).2 = st
  \/ exists u,
       users (post_register env body st).2 = users st ++ [u]
       /\ bugs (post_register env body st).2 = bugs st
       /\ (User.role u = "admin" <-> body !! "role" = Some (JS.JStr "admin"))
       /\ (body !! "role" ≠ Some (JS.JStr "admin") -> User.role u = "reporter")
       /\ (User.role u = "admin" \/ User.role u = "reporter").
Proof.
  destruct (post_register_cases env body st) as [->|(n & e & h & ->)];
    [by left|].
  right. eexists. split; [done|]. split; [done|]. simpl.
  unfold JS.strict_eq_str.
  destruct (body !! "role") as [[| | |r| |]|]; try by (repeat split; auto).
  destruct (String.eqb_spec r "admin") as [->|Hr]; [by repeat split; auto|].
  repeat split; auto; [done|]. by intros [= ->].
Qed.

Lemma findOne_email_absent (e : string) (us : list User.t) :
  e ∉ map User.email us -> findOne_email (Some (JS.JStr e)) us = None.
Proof.
  intros Hne. unfold findOne_email.
  destruct (find _ us) as [u|] eqn:Hf; [|done].
  apply find_some in Hf as [Hin Heq%String.eqb_eq].
  exfalso. apply Hne. rewrite <- Heq. apply list_elem_of_fmap.
  exists u. split; [done|]. by apply list_elem_of_In.
Qed.

(** C8. A login with an email that no stored user has is answered
    "Please Register First!" with a redirect to the registration; a login
    whose email finds a user and whose password fails the hash comparison
    is answered "Invalid credentials"; the session is unchanged in both
    cases, and it is only changed by a login whose password passes the
    comparison. *)
Theorem login_failures_keep_session
    (body : gmap string JS.jsval) (s : Session) (st : Store) :
  (forall e, body !! "email" = Some (JS.JStr e) ->
     e ∉ map User.email (users st) ->
     post_login body s st = (flash_error "Please Register First!" "/register", s))
  /\ (forall u, findOne_email (body !! "email") (users st) = Some u ->
        bcrypt_compare (body !! "password") (User.passwordHash u)
          = Returned false ->
        post_login body s st = (flash_error "Invalid credentials" "/login", s))
  /\ ((post_login body s st).2 ≠ s ->
      exists u, findOne_email (body !! "email") (users st) = Some u
        /\ bcrypt_compare (body !! "password") (User.passwordHash u)
           = Returned true
        /\ post_login body s st
           = (flash_success "Logged in" "/dashboard",
              {| userId := Some (User._id u);
                 userName := Some (User.name u);
                 userRole := Some (User.role u) |})).
Proof.
  unfold post_login. split; [|split].
  - intros e -> He. by rewrite findOne_email_absent.
  - intros u Hu Hc. rewrite Hu. simpl. by rewrite Hc.
  - destruct (findOne_email _ _) as [u|]; simpl; [|done].
    destruct (bcrypt_compare _ _) as [[|]|] eqn:Hc; simpl; [|done..].
    intros _. by exists u.
Qed.

End Properties.

(** * The statements on the sample store *)

Ltac by_computation :=
  match goal with
  | |- ?P => apply (@bool_decide_unpack P _); vm_compute; exact I
  end.

(** Alice's dashboard, filtered and searched, lists her own bug only. *)
Lemma dashboard_reporter_scoping_witness :
  Forall (fun p => Bug.reporter (doc p) = "a1") [populate (users sample_store) login_bug].
Proof.
  refine (proj2 (proj2 (@dashboard_reporter_scoping sample_collaborators
            (session_of alice)
            {[ "status" := JS.QStr "Open"; "q" := JS.QStr "l.*s"; "page" := JS.QStr "1" ]})
            "a1" _ _) sample_store _ _ _ _ _ _ _).
  - discriminate.
  - reflexivity.
  - vm_compute. reflexivity.
Defined.

(** Alice is denied Bob's bug by the view, the edit form and the update. *)
Lemma one_policy_for_view_edit_update_witness :
  access_denied (@get_bugs_id sample_collaborators "e5" (session_of alice) sample_store).1 = true
  /\ access_denied (@get_bugs_id_edit sample_collaborators "e5" (session_of alice) sample_store).1 = true
  /\ access_denied
       (@put_bugs_id sample_collaborators "e5" {[ "status" := JS.JStr "Closed" ]}
          (session_of alice) sample_store).1 = true.
Proof.
  refine (let P := @one_policy_for_view_edit_update sample_collaborators "e5"
                     {[ "status" := JS.JStr "Closed" ]} (session_of alice)
                     sample_store crash_bug _ _ _ in
          conj (proj1 P) (conj (proj1 (proj2 P)) (proj1 (proj2 (proj2 P))))).
  - reflexivity.
  - unfold store_ok. by_computation.
  - reflexivity.
Defined.


(** Searching [LOG] is the substring test, letter case aside. *)
Lemma title_search_is_a_pattern_witness :
  @cond_holds sample_collaborators "title" (CRegex (JS.QStr "LOG") "i") login_bug
  = ci_contains "LOG" (Bug.title login_bug).
Proof.
  refine (proj2 (proj2 (@title_search_is_a_pattern sample_collaborators
            (session_of alice) {[ "q" := JS.QStr "LOG" ]} "LOG" _ _)) _ login_bug).
  - reflexivity.
  - discriminate.
  - unfold plain. by_computation.
Defined.

(** An id that no bug has is "not found", for the admin too. *)
Lemma not_found_before_authorization_witness :
  @get_bugs_id sample_collaborators "zz" (session_of root) sample_store
  = (flash_error "Bug not found" "/dashboard", sample_store).
Proof.
  refine (proj1 (proj1 (proj1 (@not_found_before_authorization
            sample_collaborators "zz" ∅ (session_of root) sample_store) _)
            "zz" _ _)).
  - reflexivity.
  - reflexivity.
  - by_computation.
Defined.

(** The admin's dashboard lists the three bugs, the newest first. *)
Lemma dashboard_newest_first_witness :
  newest_first [typo_bug; crash_bug; login_bug].
Proof.
  refine (proj1 (@dashboard_newest_first sample_collaborators ∅ (session_of root)
            sample_store sample_store
            (map (populate (users sample_store)) [typo_bug; crash_bug; login_bug])
            3%nat (Some (JS.Int 1)) 1%nat (None, None, None) _)).
  vm_compute. reflexivity.
Defined.

(** The body's [reporter] is ignored: the new bug is Alice's. *)
Example create_ignores_body_reporter :
  map fixed_paths
    (bugs (@handle sample_collaborators sample_env
             (POST_bugs {[ "title" := JS.JStr "New"; "reporter" := JS.JStr "b2" ]})
             (session_of alice) sample_store).2)
  = map fixed_paths (bugs sample_store) ++ [("g7", "a1", 9000)].
Proof. vm_compute. reflexivity. Qed.

(** An unknown email, then a wrong password. *)
Lemma login_failures_keep_session_witness :
  @post_login sample_collaborators
    {[ "email" := JS.JStr "nobody@example.com"; "password" := JS.JStr "x" ]}
    no_session sample_store
  = (flash_error "Please Register First!" "/register", no_session)
  /\ @post_login sample_collaborators
       {[ "email" := JS.JStr "bob@example.com"; "password" := JS.JStr "guess" ]}
       no_session sample_store
     = (flash_error "Invalid credentials" "/login", no_session).
Proof.
  split.
  - refine (proj1 (@login_failures_keep_session sample_collaborators _ _ _)
              "nobody@example.com" _ _).
    + reflexivity.
    + by_computation.
  - refine (proj1 (proj2 (@login_failures_keep_session sample_collaborators _ _ _))
              bob _ _).
    + reflexivity.
    + reflexivity.
Defined.

(** Registering with role ["admin"] stores an admin; with role ["Admin"],
    a reporter. *)
Lemma registered_role_witness :
  (exists u,
     users (@post_register sample_collaborators sample_env
              {[ "name" := JS.JStr "Carol"; "email" := JS.JStr "carol@example.com";
                 "password" := JS.JStr "pw"; "role" := JS.JStr "admin" ]}
              sample_store).2 = users sample_store ++ [u]
     /\ User.role u = "admin")
  /\ (exists u,
        users (@post_register sample_collaborators sample_env
                 {[ "name" := JS.JStr "Carol"; "email" := JS.JStr "carol@example.com";
                    "password" := JS.JStr "pw"; "role" := JS.JStr "Admin" ]}
                 sample_store).2 = users sample_store ++ [u]
        /\ User.role u = "reporter").
Proof.
  split.
  - destruct (@registered_role sample_collaborators sample_env
                {[ "name" := JS.JStr "Carol"; "email" := JS.JStr "carol@example.com";
                   "password" := JS.JStr "pw"; "role" := JS.JStr "admin" ]}
                sample_store) as [Hsame|(u & Hu & _ & Hrole & _)].
    + apply (f_equal (fun st => length (users st))) in Hsame.
      vm_compute in Hsame. discriminate.
    + exists u. split; [exact Hu|]. apply Hrole. reflexivity.
  - destruct (@registered_role sample_collaborators sample_env
                {[ "name" := JS.JStr "Carol"; "email" := JS.JStr "carol@example.com";
                   "password" := JS.JStr "pw"; "role" := JS.JStr "Admin" ]}
                sample_store) as [Hsame|(u & Hu & _ & _ & Hrole & _)].
    + apply (f_equal (fun st => length (users st))) in Hsame.
      vm_compute in Hsame. discriminate.
    + exists u. split; [exact Hu|]. apply Hrole. vm_compute. discriminate.
Defined.

(** Alice retitles her bug and submits an empty description: the title
    changes, the description stays. *)
Lemma blank_fields_are_kept_witness :
  exists b',
    bugs (@put_bugs_id sample_collaborators "d4"
            {[ "title" := JS.JStr "Login fails on Safari"; "description" := JS.JStr "" ]}
            (session_of alice) sample_store).2 !! 0%nat = Some b'
    /\ Bug.title b' = "Login fails on Safari"
    /\ Bug.description b' = Bug.description login_bug.
Proof.
  pose proof (@blank_fields_are_kept sample_collaborators "d4"
                {[ "title" := JS.JStr "Login fails on Safari";
                   "description" := JS.JStr "" ]}
                (session_of alice) sample_store) as Hkept.
  destruct (Forall2_lookup_l _ _ _ 0%nat login_bug Hkept eq_refl)
    as (b' & Hb' & _ & Hdesc & _).
  exists b'. split; [exact Hb'|]. split.
  - vm_compute in Hb'. by injection Hb' as <-.
  - apply Hdesc. right. reflexivity.
Defined.

(** * Where the code differs from what is claimed *)


(** C5 as claimed fails: no bug has the id [zz], which is not the text
    of an ObjectId; the lookup rejects it, and the view, the edit form and
    the update answer from their [catch] block, not "Bug not found". *)
Lemma malformed_id_is_not_reported_missing :
("zz" ∉ map Bug._id (bugs sample_store))
  /\ @get_bugs_id hex_collaborators "zz" (session_of root) sample_store
     = (flash_error "Error loading bug" "/dashboard", sample_store)
  /\ @get_bugs_id_edit hex_collaborators "zz" (session_of root) sample_store
     = (flash_error "Error loading edit form" "/dashboard", sample_store)
  /\ @put_bugs_id hex_collaborators "zz" ∅ (session_of root) sample_store
     = (flash_error "Update failed" "/dashboard", sample_store).
Proof.
  split; [by_computation|]. repeat split; vm_compute; reflexivity.
Qed.

(** C4 as claimed fails: [.*] is found in a title that does not contain
    it, and [a+b] is not found in the title [a+b]. *)
Lemma title_search_not_a_substring_test :
  dashboard_filter (session_of alice) {[ "q" := JS.QStr ".*" ]} !! "title"
    = Some (CRegex (JS.QStr ".*") "i")
  /\ (forall C : Collaborators,
        @cond_holds C "title" (CRegex (JS.QStr ".*") "i") login_bug = true)
  /\ ci_contains ".*" (Bug.title login_bug) = false
  /\ (forall C : Collaborators,
        @cond_holds C "title" (CRegex (JS.QStr "a+b") "i")
          (Bug.mk "h8" "a+b" None (Some "Low") "Open" "a1" 8000) = false)
  /\ ci_contains "a+b" "a+b" = true.
Proof. repeat split; intros; vm_compute; reflexivity. Qed.

(** C6 as claimed fails: two bugs with equal creation timestamps compare
    as equal under the dashboard's sort although their identifiers differ,
    and they are listed in either order, as the collection has them. *)
Lemma equal_timestamps_left_unordered :
  sort_compare dashboard_sort twin_a twin_b = Eq
  /\ Bug._id twin_a ≠ Bug._id twin_b
  /\ sort_bugs dashboard_sort [twin_a; twin_b] = [twin_a; twin_b]
  /\ sort_bugs dashboard_sort [twin_b; twin_a] = [twin_b; twin_a]
  /\ newest_first [twin_a; twin_b]
  /\ newest_first [twin_b; twin_a].
Proof.
  repeat split; try (vm_compute; reflexivity); try discriminate;
    repeat constructor; vm_compute; discriminate.
Qed.

Example to_number_samples :
  map JS.StringToNumber ["3"; "0"; "-5"; "abc"; ""; " 12 "; "1e3"; "0x10"; "1.5"; "1.50e1"; "-Infinity"; "1e400"; "."; "+"; "1,2"]
  = [Some (JS.Int 3); Some (JS.Int 0); Some (JS.Int (-5)); Some JS.NaN; Some (JS.Int 0);
     Some (JS.Int 12); Some (JS.Int 1000); Some (JS.Int 16); None; Some (JS.Int 15);
     Some (JS.Inf true); Some (JS.Inf false); Some JS.NaN; Some JS.NaN; Some JS.NaN].
Proof. vm_compute. reflexivity. Qed.

Example regex_samples :
  map (fun '(p, s) => Regex.search p s)
    [(".*", "hello"); ("a+b", "a+b"); ("a+b", "xAAB"); ("log", "Login fails"); ("a|b", "a"); ("x?y", "Y")]
  = [Some true; Some false; Some true; Some true; None; Some true].
Proof. vm_compute. reflexivity. Qed.

(** * Further properties of the handlers *)

Section Handlers.
Context `{Collaborators}.

(** ** Guards *)

(** X1. Each route behind [requireLogin], asked without a logged-in
    session, answers with the redirect to the login page and leaves the
    session and the store as they are. *)
Theorem protected_routes_require_login
    (env : Env) (req : Request) (s : Session) (st : Store) :
  protected req = true -> logged_in s = false ->
  handle env req s st = (flash_error "You must be logged in" "/login", s, st).
Proof.
  intros Hp Hs.
  destruct req; try discriminate; simpl;
    unfold post_bugs, get_dashboard, get_bugs_id, get_bugs_id_edit, put_bugs_id,
      requireLogin; by rewrite Hs.
Qed.

(** X2. After a logout, whatever the session was, each route behind
    [requireLogin] redirects to the login page, and the logout itself does
    not touch the store. *)
Theorem logout_ends_access
    (env env' : Env) (req : Request) (s : Session) (st : Store) :
  protected req = true ->
  let after := handle env POST_logout s st in
  after.2 = st
  /\ handle env' req after.1.2 after.2
     = (flash_error "You must be logged in" "/login", no_session, st).
Proof.
  intros Hp. simpl. split; [done|].
  destruct req; try discriminate; simpl;
    unfold post_bugs, get_dashboard, get_bugs_id, get_bugs_id_edit, put_bugs_id,
      requireLogin; done.
Qed.

(** X3. The user list is refused, with a redirect to the home page,
    unless the session is logged in with role admin; for an admin it
    lists every stored user once, the most recently created first. *)
Theorem admin_users_listing (s : Session) (st : Store) :
  (logged_in s = false \/ userRole s ≠ Some "admin" ->
     get_admin_users s st = (flash_error "Admin access required" "/", st))
  /\ (logged_in s = true -> userRole s = Some "admin" ->
      exists us,
        get_admin_users s st = (Render (view_admin_users us), st)
        /\ us ≡ₚ users st
        /\ Sorted (fun a b => User.createdAt b <= User.createdAt a) us).
Proof.
  unfold get_admin_users, requireAdmin, not_admin. split.
  - intros [Hs|Hr].
    + by rewrite Hs.
    + rewrite (bool_decide_eq_false_2 _ Hr). simpl. by rewrite orb_true_r.
  - intros Hs Hr. rewrite Hs, (bool_decide_eq_true_2 _ Hr). simpl.
    eexists. split; [done|]. split; [apply sort_by_perm|].
    apply StronglySorted_Sorted.
    assert (Transitive (fun a b : User.t => User.createdAt b <= User.createdAt a))
      by (intros a b c; simpl; lia).
    apply (sort_by_strongly _ (fun a b => User.createdAt b <= User.createdAt a)).
    + intros a b. by intros ?%Z.leb_le.
    + intros a b Hab%Z.leb_gt. lia.
Qed.

(** X4. A lookup that rejects the id (it does not cast to an ObjectId)
    is answered from the [catch] block of each of the three handlers,
    never with "not found" or a denial, and the store is untouched. *)
Theorem rejected_id_is_caught
    (id : string) (body : gmap string JS.jsval) (s : Session) (st : Store) :
  logged_in s = true -> castObjectId id = None ->
  get_bugs_id id s st = (flash_error "Error loading bug" "/dashboard", st)
  /\ get_bugs_id_edit id s st
     = (flash_error "Error loading edit form" "/dashboard", st)
  /\ put_bugs_id id body s st = (flash_error "Update failed" "/dashboard", st).
Proof.
  intros Hs Hc.
  unfold get_bugs_id, get_bugs_id_edit, put_bugs_id, requireLogin, findById.
  by rewrite Hs, Hc.
Qed.

(** ** Accounts *)

Lemma existsb_false_elem {A} (p : A -> bool) (l : list A) (x : A) :
  existsb p l = false -> In x l -> p x = false.
Proof.
  intros Hex Hx. destruct (p x) eqn:Hp; [|done].
  rewrite <- Hex. symmetry. apply existsb_exists. by exists x.
Qed.

Lemma save_user_inv (env : Env) (n e : option JS.jsval) (h r : string)
    (us us' : list User.t) :
  save_user env n e h r us = Returned us' ->
  exists name email,
    cast_path n = Returned (Some name)
    /\ cast_path e = Returned (Some email)
    /\ (email ∉ map User.email us)
    /\ (newId env ∉ map User._id us)
    /\ us' = us ++ [User.mk (newId env) name email h r (now env)].
Proof.
  unfold save_user.
  destruct (cast_path n) as [[name|]|]; simpl; try done.
  - destruct (cast_path e) as [[email|]|]; simpl; try done.
    destruct (existsb _ us) eqn:Hex; simpl; [done|].
    intros [= <-]. exists name, email. repeat split; try done.
    + intros (u & -> & Hu%list_elem_of_In)%list_elem_of_fmap.
      pose proof (existsb_false_elem _ _ u Hex Hu) as Hf. simpl in Hf.
      by rewrite String.eqb_refl in Hf.
    + intros (u & Heq & Hu%list_elem_of_In)%list_elem_of_fmap.
      pose proof (existsb_false_elem _ _ u Hex Hu) as Hf. simpl in Hf.
      rewrite Heq, String.eqb_refl, orb_true_r in Hf. done.
  - by destruct (cast_path e) as [[email|]|].
Qed.

(** A registration either leaves the store and answers with an error, or
    appends the user it describes and answers with the success flash. *)
Lemma post_register_outcome (env : Env) (body : gmap string JS.jsval) (st : Store) :
  ((post_register env body st).2 = st
   /\ success_response (post_register env body st).1 = false)
  \/ exists name email hash,
       findOne_email (body !! "email") (users st) = None
       /\ cast_path (body !! "name") = Returned (Some name)
       /\ cast_path (body !! "email") = Returned (Some email)
       /\ bcrypt_hash (body !! "password") (salt env) = Returned hash
       /\ (email ∉ map User.email (users st))
       /\ (newId env ∉ map User._id (users st))
       /\ post_register env body st
          = (flash_success "Registered. Please login." "/login",
             {| users := users st ++
                  [User.mk (newId env) name email hash
                     (if JS.strict_eq_str (body !! "role") "admin"
                      then "admin" else "reporter")
                     (now env)];
                bugs := bugs st |}).
Proof.
  unfold post_register.
  destruct (_ || _); [by left|].
  destruct (findOne_email _ _) eqn:Hfind; [by left|].
  destruct (bcrypt_hash _ _) as [hash|] eqn:Hhash; simpl; [|by left].
  destruct (save_user _ _ _ _ _ _) as [us'|] eqn:Hsave; simpl; [|by left].
  apply save_user_inv in Hsave as (name & email & Hn & He & Hfe & Hfi & ->).
  right. by exists name, email, hash.
Qed.

Lemma get_setup_create_admin_outcome (env : Env) (st : Store) :
  ((get_setup_create_admin env st).2 = st
   /\ success_response (get_setup_create_admin env st).1 = false)
  \/ exists name email hash,
       cast_path (Some (JS.JStr "admin@example.com")) = Returned (Some email)
       /\ (email ∉ map User.email (users st))
       /\ (newId env ∉ map User._id (users st))
       /\ get_setup_create_admin env st
          = (Send 200 "Admin created: admin@example.com / adminpass",
             {| users := users st ++
                  [User.mk (newId env) name email hash "admin" (now env)];
                bugs := bugs st |}).
Proof.
  unfold get_setup_create_admin.
  destruct (findOne_email _ _) eqn:Hfind; [by left|].
  destruct (bcrypt_hash _ _) as [hash|] eqn:Hhash; simpl; [|by left].
  destruct (save_user _ _ _ _ _ _) as [us'|] eqn:Hsave; simpl; [|by left].
  apply save_user_inv in Hsave as (name & email & Hn & He & Hfe & Hfi & ->).
  right. by exists name, email, hash.
Qed.

Lemma find_app_fresh {A} (p : A -> bool) (l : list A) (x : A) :
  (forall y, y ∈ l -> p y = false) -> p x = true -> find p (l ++ [x]) = Some x.
Proof.
  intros Hl Hx. induction l as [|y l IH]; simpl; [by rewrite Hx|].
  rewrite (Hl y) by apply list_elem_of_here.
  apply IH. intros z Hz. apply Hl. by apply list_elem_of_further.
Qed.

Lemma find_app_found {A} (p : A -> bool) (l : list A) (x : A) :
  p x = true -> is_Some (find p (l ++ [x])).
Proof.
  intros Hx. induction l as [|y l IH]; simpl; [by rewrite Hx|].
  by destruct (p y).
Qed.

(** X5. A registration with an empty or missing name, email or password
    is answered "Please fill all fields" and stores nothing. *)
Theorem register_requires_all_fields
    (env : Env) (body : gmap string JS.jsval) (st : Store) :
  JS.truthy_body (body !! "name") = false
  \/ JS.truthy_body (body !! "email") = false
  \/ JS.truthy_body (body !! "password") = false ->
  post_register env body st
  = (flash_error "Please fill all fields" "/register", st).
Proof.
  intros Hblank. unfold post_register.
  assert (negb (JS.truthy_body (body !! "name"))
          || negb (JS.truthy_body (body !! "email"))
          || negb (JS.truthy_body (body !! "password")) = true) as ->; [|done].
  destruct Hblank as [-> | [-> | ->]]; simpl; by rewrite ?orb_true_r.
Qed.

(** The email of a registration that succeeded is taken: a registration
    that gives it again, with a name and a password, is refused. *)
Lemma register_taken_email
    (env env' : Env) (body body' : gmap string JS.jsval) (e : string) (st : Store) :
  body !! "email" = Some (JS.JStr e) -> castString (JS.JStr e) = Some e ->
  (post_register env body st).1
    = flash_success "Registered. Please login." "/login" ->
  body' !! "email" = Some (JS.JStr e) ->
  JS.truthy_body (body' !! "name") = true ->
  JS.truthy_body (body' !! "password") = true ->
  post_register env' body' (post_register env body st).2
  = (flash_error "Email already in use" "/register",
     (post_register env body st).2).
Proof.
  intros He Hcast Hok He' Hn' Hp'.
  destruct (post_register_outcome env body st)
    as [[_ Hno]|(name & email & hash & _ & _ & Hemail & _ & _ & _ & Heq)].
  { rewrite Hok in Hno. done. }
  rewrite Heq. simpl.
  rewrite He in Hemail. simpl in Hemail. rewrite Hcast in Hemail.
  injection Hemail as <-.
  unfold post_register at 1. rewrite Hn', Hp', He'. simpl.
  assert (JS.truthy_body (body !! "email") = true) as Ht.
  { revert Hok. unfold post_register.
    destruct (JS.truthy_body (body !! "email")); [done|].
    by rewrite orb_true_r. }
  rewrite He in Ht. simpl in Ht. rewrite Ht. simpl.
  unfold findOne_email.
  destruct (find_app_found (email_holds (Some (JS.JStr e))) (users st)
              (User.mk (newId env) name e hash
                 (if JS.strict_eq_str (body !! "role") "admin"
                  then "admin" else "reporter") (now env)))
    as [u ->]; [|done].
  simpl. apply String.eqb_refl.
Qed.

(** X6. Once a registration with an email has succeeded, a later
    registration with the same email stores no second record, whatever
    else it submits and whenever it comes: it is answered "Email already
    in use" when its name and password are filled in, and "Please fill all
    fields" when one of them is not. *)
Theorem register_same_email_twice
    (env env' : Env) (body body' : gmap string JS.jsval) (e : string) (st : Store) :
  body !! "email" = Some (JS.JStr e) -> castString (JS.JStr e) = Some e ->
  (post_register env body st).1
    = flash_success "Registered. Please login." "/login" ->
  body' !! "email" = Some (JS.JStr e) ->
  let st1 := (post_register env body st).2 in
  (post_register env' body' st1).2 = st1
  /\ (JS.truthy_body (body' !! "name") = true ->
      JS.truthy_body (body' !! "password") = true ->
      post_register env' body' st1
      = (flash_error "Email already in use" "/register", st1))
  /\ (JS.truthy_body (body' !! "name") = false
      \/ JS.truthy_body (body' !! "password") = false ->
      post_register env' body' st1
      = (flash_error "Please fill all fields" "/register", st1)).
Proof.
  intros He Hcast Hok He' st1.
  assert (Hblank : JS.truthy_body (body' !! "name") = false
                   \/ JS.truthy_body (body' !! "password") = false ->
                   post_register env' body' st1
                   = (flash_error "Please fill all fields" "/register", st1)).
  { intros Hb. unfold post_register.
    assert (negb (JS.truthy_body (body' !! "name"))
            || negb (JS.truthy_body (body' !! "email"))
            || negb (JS.truthy_body (body' !! "password")) = true) as ->;
      [|done].
    destruct Hb as [-> | ->]; simpl; by rewrite ?orb_true_r. }
  assert (Htaken : JS.truthy_body (body' !! "name") = true ->
                   JS.truthy_body (body' !! "password") = true ->
                   post_register env' body' st1
                   = (flash_error "Email already in use" "/register", st1)).
  { intros Hn Hp. by eapply register_taken_email. }
  split; [|by split].
  destruct (JS.truthy_body (body' !! "name")) eqn:Hn;
    [|by rewrite Hblank by auto].
  destruct (JS.truthy_body (body' !! "password")) eqn:Hp;
    [|by rewrite Hblank by auto].
  by rewrite Htaken.
Qed.

(** X7. A registration that succeeded can be used: when the hash bcrypt
    made verifies against the password, a login with the same email and
    password opens a session for the new user, with the name and the role
    that were stored. *)
Theorem register_then_login
    (env : Env) (body : gmap string JS.jsval) (e : string)
    (s : Session) (st : Store) :
  body !! "email" = Some (JS.JStr e) -> castString (JS.JStr e) = Some e ->
  (forall h, bcrypt_hash (body !! "password") (salt env) = Returned h ->
             bcrypt_compare (body !! "password") h = Returned true) ->
  (post_register env body st).1
    = flash_success "Registered. Please login." "/login" ->
  exists u,
    users (post_register env body st).2 = users st ++ [u]
    /\ User.email u = e
    /\ post_login body s (post_register env body st).2
       = (flash_success "Logged in" "/dashboard",
          {| userId := Some (newId env);
             userName := Some (User.name u);
             userRole := Some (if JS.strict_eq_str (body !! "role") "admin"
                               then "admin" else "reporter") |}).
Proof.
  intros He Hcast Hbcrypt Hok.
  destruct (post_register_outcome env body st)
    as [[_ Hno]|(name & email & hash & _ & _ & Hemail & Hhash & Hfresh & _ & Heq)].
  { rewrite Hok in Hno. done. }
  rewrite Heq. simpl.
  rewrite He in Hemail. simpl in Hemail. rewrite Hcast in Hemail.
  injection Hemail as <-.
  eexists. split; [done|]. split; [done|].
  unfold post_login. rewrite He. unfold findOne_email. cbn [users].
  rewrite find_app_fresh.
  - simpl. by rewrite (Hbcrypt _ Hhash).
  - intros u Hu. simpl. apply String.eqb_neq. intros Heu. apply Hfresh.
    rewrite <- Heu. apply list_elem_of_fmap. by exists u.
  - simpl. apply String.eqb_refl.
Qed.

(** ** Bugs *)

(** Filing a bug either leaves the store and answers with an error, or
    appends the bug it describes and answers with the success flash. *)
Lemma post_bugs_outcome (env : Env) (body : gmap string JS.jsval)
    (s : Session) (st : Store) :
  ((post_bugs env body s st).2 = st
   /\ success_response (post_bugs env body s st).1 = false)
  \/ exists title description severity uid,
       logged_in s = true
       /\ cast_path (body !! "title") = Returned (Some title)
       /\ cast_path (body !! "description") = Returned description
       /\ cast_path_default Bug.severity_default (body !! "severity")
          = Returned severity
       /\ userId s = Some uid
       /\ let b := Bug.mk (newId env) title description severity
                     Bug.status_default uid (now env) in
          Bug.valid b = true
          /\ post_bugs env body s st
             = (flash_success "Bug reported" "/dashboard",
                {| users := users st; bugs := bugs st ++ [b] |}).
Proof.
  unfold post_bugs, requireLogin, new_Bug, insert_bug.
  destruct (logged_in s); simpl; [|by left].
  destruct (cast_path (body !! "title")) as [[title|]|]; simpl; try by left.
  - destruct (cast_path (body !! "description")) as [description|]; simpl;
      [|by left].
    destruct (cast_path_default _ (body !! "severity")) as [severity|]; simpl;
      [|by left].
    destruct (userId s) as [uid|]; simpl; [|by left].
    destruct (Bug.valid _) eqn:Hvalid; simpl; [|by left].
    destruct (existsb _ _); simpl; [by left|].
    right. by exists title, description, severity, uid.
  - destruct (cast_path (body !! "description")) as [description|]; simpl;
      [|by left].
    by destruct (cast_path_default _ (body !! "severity")) as [severity|];
      simpl; left.
Qed.

(** An update either leaves the store and answers with an error, or
    replaces the bug it found by a valid bug with the four paths assigned
    and answers with the success flash. *)
Lemma put_bugs_id_outcome (id : string) (body : gmap string JS.jsval)
    (s : Session) (st : Store) :
  ((put_bugs_id id body s st).2 = st
   /\ success_response (put_bugs_id id body s st).1 = false)
  \/ exists oid b title' description' severity' status',
       castObjectId id = Some oid
       /\ find (fun x => String.eqb (Bug._id x) oid) (bugs st) = Some b
       /\ assign (body !! "title") (Bug.title b) = Returned title'
       /\ assign_opt (body !! "description") (Bug.description b)
          = Returned description'
       /\ assign_opt (body !! "severity") (Bug.severity b) = Returned severity'
       /\ assign (body !! "status") (Bug.status b) = Returned status'
       /\ let bug' := Bug.mk oid title' description' severity' status'
                        (Bug.reporter b) (Bug.createdAt b) in
          Bug.valid bug' = true
          /\ put_bugs_id id body s st
             = (flash_success "Bug updated" ("/bugs/" +:+ id),
                {| users := users st; bugs := replace_bug bug' (bugs st) |}).
Proof.
  unfold put_bugs_id, requireLogin, findById.
  destruct (negb (logged_in s)); [by left|].
  destruct (castObjectId id) as [oid|]; simpl; [|by left].
  destruct (find _ (bugs st)) as [b|] eqn:Hfind; simpl; [|by left].
  destruct (not_admin s && _); [by left|].
  destruct (assign (body !! "title") _) as [title'|] eqn:Ht; simpl; [|by left].
  destruct (assign_opt (body !! "description") _) as [description'|] eqn:Hd;
    simpl; [|by left].
  destruct (assign_opt (body !! "severity") _) as [severity'|] eqn:Hv; simpl;
    [|by left].
  destruct (assign (body !! "status") _) as [status'|] eqn:Hs; simpl; [|by left].
  pose proof Hfind as [_ Hid%String.eqb_eq]%find_some. rewrite Hid.
  destruct (Bug.valid _) eqn:Hvalid; simpl; [|by left].
  right. by exists oid, b, title', description', severity', status'.
Qed.

Lemma page_route_store (env : Env) (req : Request) (s : Session) (st : Store) :
  page_route req = true -> (handle env req s st).2 = st.
Proof.
  destruct req as [| |body| |body| | |body|query|id|id|id body| |];
    try discriminate; intros _; simpl; try done.
  - unfold requireLogin, read_only. by destruct (negb _).
  - unfold get_dashboard, requireLogin.
    destruct (negb _); [done|]. by destruct (find_bugs _ _ _ _ _).
  - unfold get_bugs_id, requireLogin. destruct (negb _); [done|].
    destruct (findById _ _) as [[b|]|]; simpl; [|done..].
    destruct (not_admin s); simpl; [|done].
    destruct (find _ (users st)) as [u|]; simpl; [|done].
    by destruct (negb _).
  - unfold get_bugs_id_edit, requireLogin. destruct (negb _); [done|].
    destruct (findById _ _) as [[b|]|]; simpl; [|done..].
    by destruct (_ && _).
  - unfold get_admin_users, requireAdmin. by destruct (_ || _).
Qed.

(** What a request does to the store, with the answer that goes with it:
    nothing; or, with a success answer, a new user with a new email; a
    new valid bug; or a valid bug in place of the one with its id. *)
Lemma handle_outcome (env : Env) (req : Request) (s : Session) (st : Store) :
  (handle env req s st).2 = st
  \/ success_response (handle env req s st).1.1 = true
     /\ ((exists u,
            (User.email u ∉ map User.email (users st))
            /\ (handle env req s st).2
               = {| users := users st ++ [u]; bugs := bugs st |})
         \/ (exists b,
               Bug.valid b = true
               /\ (handle env req s st).2
                  = {| users := users st; bugs := bugs st ++ [b] |})
         \/ (exists b b',
               find (fun x => String.eqb (Bug._id x) (Bug._id b')) (bugs st)
                 = Some b
               /\ Bug.valid b' = true
               /\ (handle env req s st).2
                  = {| users := users st;
                       bugs := replace_bug b' (bugs st) |})).
Proof.
  destruct (page_route req) eqn:Hpage; [left; by apply page_route_store|].
  destruct req as [| |body| |body| | |body|query|id|id|id body| |];
    try discriminate; simpl; try by left.
  - destruct (post_register_outcome env body st)
      as [[-> _]|(n & e & h & _ & _ & _ & _ & He & _ & ->)]; [by left|].
    right. split; [done|]. left. eexists. split; [|reflexivity]. done.
  - destruct (post_bugs_outcome env body s st)
      as [[-> _]|(t & d & v & uid & _ & _ & _ & _ & _ & Hvalid & ->)];
      [by left|].
    right. split; [done|]. right; left. eexists. split; [|reflexivity]. done.
  - destruct (put_bugs_id_outcome id body s st)
      as [[-> _]|(oid & b & t & d & v & u & _ & Hfind & _ & _ & _ & _ & Hvalid & ->)];
      [by left|].
    right. split; [done|]. right; right. exists b. eexists.
    split; [|split; [|reflexivity]]; done.
  - destruct (get_setup_create_admin_outcome env st)
      as [[-> _]|(n & e & h & _ & He & _ & ->)]; [by left|].
    right. split; [done|]. left. eexists. split; [|reflexivity]. done.
Qed.

(** X8. The routes that render a page or a list change neither the store
    nor the session. *)
Theorem page_routes_change_nothing
    (env : Env) (req : Request) (s : Session) (st : Store) :
  page_route req = true ->
  (handle env req s st).2 = st /\ (handle env req s st).1.2 = s.
Proof.
  intros Hpage. split; [by apply page_route_store|].
  by destruct req.
Qed.

(** X9. A request that changes the store is answered with a success: no
    error answer, whether a validation failure, a denial, a missing bug
    or a caught exception, leaves anything written. *)
Theorem only_successes_write
    (env : Env) (req : Request) (s : Session) (st : Store) :
  (handle env req s st).2 ≠ st ->
  success_response (handle env req s st).1.1 = true.
Proof.
  intros Hchanged.
  by destruct (handle_outcome env req s st) as [?|[? _]].
Qed.

(** X10. No request deletes or rewrites a user, and none deletes a bug:
    after any request the stored users begin with the users stored
    before, unchanged, and the identifiers of the stored bugs begin with
    those stored before. *)
Theorem nothing_is_deleted
    (env : Env) (req : Request) (s : Session) (st : Store) :
  users st `prefix_of` users (handle env req s st).2
  /\ map Bug._id (bugs st) `prefix_of` map Bug._id (bugs (handle env req s st).2).
Proof.
  destruct (handle_outcome env req s st)
    as [->|[_ [(u & _ & ->)|[(b & _ & ->)|(b & b' & Hfind & _ & ->)]]]]; simpl.
  - done.
  - split; [by apply prefix_app_r|done].
  - split; [done|]. rewrite map_app. by apply prefix_app_r.
  - split; [done|].
    assert (map Bug._id (replace_bug b' (bugs st)) = map Bug._id (bugs st))
      as ->; [|done].
    symmetry. clear -Hfind.
    induction (bugs st) as [|x bs IH]; simpl in *; [done|].
    destruct (String.eqb_spec (Bug._id x) (Bug._id b')) as [Heq|Hne]; simpl.
    + by rewrite Heq.
    + f_equal. by apply IH.
Qed.

(** X11. Emails stay unique: from a store in which no two users share an
    email, no request leads to a store in which two do. *)
Theorem emails_stay_unique
    (env : Env) (req : Request) (s : Session) (st : Store) :
  NoDup (map User.email (users st)) ->
  NoDup (map User.email (users (handle env req s st).2)).
Proof.
  intros Hnd.
  destruct (handle_outcome env req s st)
    as [->|[_ [(u & Hu & ->)|[(b & _ & ->)|(b & b' & _ & _ & ->)]]]]; simpl;
    try done.
  rewrite map_app. apply NoDup_app. split; [done|]. split.
  - intros e He Hin. simpl in Hin. apply list_elem_of_singleton in Hin as ->.
    done.
  - simpl. apply NoDup_singleton.
Qed.

Lemma replace_bug_Forall (P : Bug.t -> Prop) (b' : Bug.t) (bs : list Bug.t) :
  Forall P bs -> P b' -> Forall P (replace_bug b' bs).
Proof.
  intros Hbs Hb'. induction Hbs as [|x bs Hx Hbs IH]; simpl; [done|].
  destruct (String.eqb _ _); by constructor.
Qed.

(** X12. The schema holds of what is stored: from a store in which every
    bug has a non-empty title, a severity that is null or among Low,
    Medium, High, and a status among Open, In Progress, Closed, no request
    leads to a store with a bug that has not. *)
Theorem stored_bugs_stay_valid
    (env : Env) (req : Request) (s : Session) (st : Store) :
  Forall (fun b => Bug.valid b = true) (bugs st) ->
  Forall (fun b => Bug.valid b = true) (bugs (handle env req s st).2).
Proof.
  intros Hall.
  destruct (handle_outcome env req s st)
    as [->|[_ [(u & _ & ->)|[(b & Hb & ->)|(b & b' & _ & Hb' & ->)]]]]; simpl;
    try done.
  - apply Forall_app. split; [done|]. by constructor.
  - by apply replace_bug_Forall.
Qed.


(** X14. Without a title, or with one that does not cast to a non-empty
    text, nothing is filed: the answer is "Failed to report bug" and the
    store is as it was. *)
Theorem create_needs_title
    (env : Env) (body : gmap string JS.jsval) (s : Session) (st : Store) :
  logged_in s = true ->
  body !! "title" = None
  \/ (exists v, body !! "title" = Some v
                /\ (castString v = None \/ castString v = Some "")) ->
  post_bugs env body s st = (flash_error "Failed to report bug" "/bugs/new", st).
Proof.
  intros Hs Htitle. unfold post_bugs, requireLogin, new_Bug. rewrite Hs. simpl.
  assert (Hcast : cast_path (body !! "title") = Returned None
                  \/ cast_path (body !! "title") = Threw
                  \/ cast_path (body !! "title") = Returned (Some "")).
  { destruct Htitle as [->|(v & -> & [Hv|Hv])]; [by left|..];
      (destruct v; [by left|..]); simpl; rewrite Hv; auto. }
  destruct Hcast as [-> | [-> | ->]]; simpl; [|done|].
  - destruct (cast_path (body !! "description")); simpl; [|done].
    by destruct (cast_path_default _ (body !! "severity")).
  - destruct (cast_path (body !! "description")); simpl; [|done].
    destruct (cast_path_default _ (body !! "severity")); simpl; [|done].
    by destruct (userId s).
Qed.

(** X15. An update writes to one bug at most, the one with the id of the
    route: every other bug, and every user, is stored afterwards as it
    was before. *)
Theorem update_touches_one_bug
    (id : string) (body : gmap string JS.jsval) (s : Session) (st : Store) :
  users (put_bugs_id id body s st).2 = users st
  /\ Forall2 (fun b b' => castObjectId id ≠ Some (Bug._id b) -> b' = b)
       (bugs st) (bugs (put_bugs_id id body s st).2).
Proof.
  destruct (put_bugs_id_outcome id body s st)
    as [[-> _]|(oid & b & t & d & v & u & Hc & Hfind & _ & _ & _ & _ & _ & ->)].
  - split; [done|]. by apply Forall_Forall2_diag, Forall_true.
  - split; [done|]. simpl.
    eapply replace_bug_Forall2; [done|exact Hfind|done|].
    apply find_some in Hfind as [_ Hid%String.eqb_eq].
    intros Hne. by rewrite Hid in Hne.
Qed.

Lemma find_replace_bug (oid : ObjectId) (b b' : Bug.t) (bs : list Bug.t) :
  find (fun x => String.eqb (Bug._id x) oid) bs = Some b ->
  Bug._id b' = oid ->
  find (fun x => String.eqb (Bug._id x) oid) (replace_bug b' bs) = Some b'.
Proof.
  intros Hfind Hid. induction bs as [|x bs IH]; simpl in *; [done|].
  rewrite Hid. destruct (String.eqb (Bug._id x) oid) eqn:Hx; simpl.
  - by rewrite Hid, String.eqb_refl.
  - rewrite Hx. by apply IH.
Qed.

Lemma assign_truthy (v : JS.jsval) (old t : string) :
  JS.truthy_body (Some v) = true -> assign (Some v) old = Returned t ->
  castString v = Some t.
Proof.
  unfold assign. intros ->. by destruct (castString v) as [t'|]; intros [= <-].
Qed.

Lemma assign_opt_truthy (v : JS.jsval) (old t : option string) :
  JS.truthy_body (Some v) = true -> assign_opt (Some v) old = Returned t ->
  castString v = t.
Proof.
  unfold assign_opt. intros ->. by destruct (castString v) as [t'|]; intros [= <-].
Qed.

(** X16. After an update answered "Bug updated", the bug with the id of
    the route is stored with, for each of title, description, severity
    and status that was submitted non-empty, the text that value casts
    to. *)
Theorem update_stores_submitted
    (id : string) (body : gmap string JS.jsval) (s : Session) (st : Store) :
  (put_bugs_id id body s st).1
    = flash_success "Bug updated" ("/bugs/" +:+ id) ->
  exists oid b',
    castObjectId id = Some oid
    /\ find (fun x => String.eqb (Bug._id x) oid)
         (bugs (put_bugs_id id body s st).2) = Some b'
    /\ (forall v, body !! "title" = Some v -> JS.truthy_body (Some v) = true ->
          castString v = Some (Bug.title b'))
    /\ (forall v, body !! "description" = Some v ->
          JS.truthy_body (Some v) = true ->
          castString v = Bug.description b')
    /\ (forall v, body !! "severity" = Some v ->
          JS.truthy_body (Some v) = true ->
          castString v = Bug.severity b')
    /\ (forall v, body !! "status" = Some v -> JS.truthy_body (Some v) = true ->
          castString v = Some (Bug.status b')).
Proof.
  intros Hok.
  destruct (put_bugs_id_outcome id body s st)
    as [[_ Hno]|(oid & b & t & d & v & u & Hc & Hfind & Ht & Hd & Hv & Hu & _ & Heq)].
  { rewrite Hok in Hno. done. }
  rewrite Heq. exists oid. eexists. split; [done|]. split.
  { simpl. by eapply find_replace_bug. }
  simpl. repeat split; intros x Hx Htruthy.
  - rewrite Hx in Ht. by eapply assign_truthy.
  - rewrite Hx in Hd. by eapply assign_opt_truthy.
  - rewrite Hx in Hv. by eapply assign_opt_truthy.
  - rewrite Hx in Hu. by eapply assign_truthy.
Qed.

(** ** The dashboard *)

Lemma pages_of_bounds (total : nat) :
  (total <= 10 * pages_of total < total + 10)%nat.
Proof.
  unfold pages_of, limit.
  pose proof (Z.div_mod (Z.of_nat total + 10 - 1) 10 ltac:(lia)) as Hdm.
  pose proof (Z.mod_pos_bound (Z.of_nat total + 10 - 1) 10 ltac:(lia)) as Hm.
  split; lia.
Qed.

(** X17. A dashboard that is rendered shows at most ten bugs, each of
    them a stored bug that matches the filter; its total is the number of
    all stored bugs that match, and its number of pages is the least
    number of pages of ten that hold that total. *)
Theorem dashboard_counts
    (query : gmap string JS.qsval) (s : Session) (st st' : Store)
    (found : list Populated) (total : nat) (page : option JS.jsnum)
    (pages : nat) (filters : option JS.qsval * option JS.qsval * option JS.qsval) :
  get_dashboard query s st
    = (Render (view_dashboard found total page pages filters), st') ->
  (length found <= 10)%nat
  /\ (length found <= total)%nat
  /\ total = length (base.filter (matches (dashboard_filter s query)) (bugs st))
  /\ (total <= 10 * pages < total + 10)%nat
  /\ Forall (fun p => doc p ∈ bugs st
                      /\ matches (dashboard_filter s query) (doc p)) found.
Proof.
  unfold get_dashboard, requireLogin.
  destruct (negb (logged_in s)); [done|].
  destruct (find_bugs _ _ _ _ _) as [l|] eqn:Hfind; simpl; [|done].
  intros [= <- <- _ <- _ _].
  rewrite length_map. unfold countDocuments.
  pose proof Hfind as Hl. unfold find_bugs in Hl.
  destruct (accept_skip _) as [n|]; simpl in Hl; [|done].
  injection Hl as <-.
  split; [rewrite length_take; unfold limit; lia|].
  split.
  { rewrite length_take, length_drop. unfold sort_bugs.
    rewrite (Permutation_length (sort_by_perm _ _)). lia. }
  split; [done|]. split; [apply pages_of_bounds|].
  apply Forall_forall. intros p (b & -> & Hb)%list_elem_of_fmap. simpl.
  by eapply find_bugs_matches.
Qed.

Lemma set_if_blank v key mk (filter : gmap string cond) :
  blank_param v -> set_if v key mk filter = filter.
Proof. by intros [-> | ->]. Qed.

Lemma set_if_text (t : string) key mk (filter : gmap string cond) :
  t ≠ "" -> set_if (Some (JS.QStr t)) key mk filter = <[key := mk (JS.QStr t)]> filter.
Proof.
  intros Ht. unfold set_if. simpl.
  by destruct (String.eqb_spec t "").
Qed.

(** X18. With a status and a severity given as non-empty texts and no
    search text, the dashboard filter matches exactly the bugs that have
    that status and that severity and, unless the session's role is
    admin, the session's user as reporter. *)
Theorem dashboard_filter_by_status_and_severity
    (s : Session) (query : gmap string JS.qsval) (uid : ObjectId)
    (status severity : string) (b : Bug.t) :
  userId s = Some uid ->
  query !! "status" = Some (JS.QStr status) -> status ≠ "" ->
  query !! "severity" = Some (JS.QStr severity) -> severity ≠ "" ->
  blank_param (query !! "q") ->
  matches (dashboard_filter s query) b
  <-> (userRole s = Some "admin" \/ Bug.reporter b = uid)
      /\ Bug.status b = status /\ Bug.severity b = Some severity.
Proof.
  intros Huid Hst Hst0 Hsv Hsv0 Hq.
  assert (Hstatus : cond_holds "status" (CVal (JS.QStr status)) b = true
                    <-> Bug.status b = status).
  { unfold cond_holds. simpl. apply String.eqb_eq. }
  assert (Hseverity : cond_holds "severity" (CVal (JS.QStr severity)) b = true
                      <-> Bug.severity b = Some severity).
  { unfold cond_holds.
    change (Bug.path "severity" b) with (Bug.severity b).
    destruct (Bug.severity b) as [v|]; [|by split].
    rewrite String.eqb_eq. split; congruence. }
  assert (Hreporter : cond_holds "reporter" (CEq (Some uid)) b = true
                      <-> Bug.reporter b = uid).
  { unfold cond_holds. simpl. apply String.eqb_eq. }
  unfold dashboard_filter, matches, not_admin.
  rewrite (set_if_blank _ _ _ _ Hq), Hst, Hsv, !set_if_text by done.
  rewrite !map_Forall_insert.
  - rewrite Hstatus, Hseverity.
    case_bool_decide as Hrole; simpl.
    + split; [intros (? & ? & _)|intros (_ & ? & ?)]; repeat split; auto.
      apply map_Forall_empty.
    + rewrite map_Forall_insert by apply lookup_empty.
      rewrite Huid, Hreporter.
      split.
      * intros (? & ? & ? & _). auto.
      * intros ([?|?] & ? & ?); [done|]. repeat split; auto.
        apply map_Forall_empty.
  - case_bool_decide; simpl; [apply lookup_empty|].
    by rewrite lookup_insert_ne.
  - rewrite lookup_insert_ne by done.
    case_bool_decide; simpl; [apply lookup_empty|].
    by rewrite lookup_insert_ne.
Qed.

(** X19. A search text, status or severity submitted empty, as an
    unfilled form field is, adds no condition and does not move the
    page: the filter and the skip are those of the query without it. *)
Theorem blank_params_add_nothing
    (s : Session) (query : gmap string JS.qsval) (key : string) :
  key ∈ ["q"; "status"; "severity"] ->
  dashboard_filter s (<[key := JS.QStr ""]> query)
    = dashboard_filter s (delete key query)
  /\ dashboard_skip (<[key := JS.QStr ""]> query)
     = dashboard_skip (delete key query).
Proof.
  intros Hkey.
  repeat (apply elem_of_cons in Hkey as [->|Hkey]);
    [| | |by apply elem_of_nil in Hkey];
    unfold dashboard_filter, dashboard_skip, dashboard_page;
    rewrite ?lookup_insert_eq, ?lookup_delete_eq,
      ?lookup_insert_ne, ?lookup_delete_ne by done; done.
Qed.

(** X20. An admin's dashboard without search text, status or severity
    matches every stored bug: its total is the number of bugs stored. *)
Theorem admin_sees_every_bug
    (s : Session) (query : gmap string JS.qsval) (st : Store) :
  userRole s = Some "admin" ->
  blank_param (query !! "q") -> blank_param (query !! "status") ->
  blank_param (query !! "severity") ->
  (forall b, matches (dashboard_filter s query) b)
  /\ countDocuments (dashboard_filter s query) (bugs st) = length (bugs st).
Proof.
  intros Hrole Hq Hst Hsv.
  assert (Hempty : dashboard_filter s query = ∅).
  { unfold dashboard_filter, not_admin.
    rewrite !set_if_blank by done. by rewrite bool_decide_eq_true_2. }
  rewrite Hempty. split.
  - intros b. apply map_Forall_empty.
  - unfold countDocuments. f_equal.
    induction (bugs st) as [|b bs IH]; [done|].
    rewrite filter_cons_True by apply map_Forall_empty. by rewrite IH.
Qed.

(** X22. The admin is seeded once: after the route has answered "Admin
    created", any later call answers "Admin already exists" and stores
    nothing more. *)
Theorem setup_creates_admin_once (env env' : Env) (st : Store) :
  castString (JS.JStr "admin@example.com") = Some "admin@example.com" ->
  (get_setup_create_admin env st).1
    = Send 200 "Admin created: admin@example.com / adminpass" ->
  get_setup_create_admin env' (get_setup_create_admin env st).2
  = (Send 200 "Admin already exists. Delete it and re-run if you want a fresh one.",
     (get_setup_create_admin env st).2).
Proof.
  intros Hcast Hok.
  destruct (get_setup_create_admin_outcome env st)
    as [[_ Hno]|(n & e & h & He & _ & _ & Heq)].
  { rewrite Hok in Hno. done. }
  rewrite Heq. simpl. simpl in He. rewrite Hcast in He. injection He as <-.
  unfold get_setup_create_admin at 1. unfold findOne_email. cbn [users].
  destruct (find_app_found (email_holds (Some (JS.JStr "admin@example.com")))
              (users st)
              (User.mk (newId env) n "admin@example.com" h "admin" (now env)))
    as [u ->]; done.
Qed.

(** X23. In the running application the view of a bug that exists never
    ends in its [catch] block: for a logged-in session of the
    application, the answer is the page of the bug, with its reporter
    attached, or the denial. *)
Theorem view_of_existing_bug_never_fails
    (w : World) (sid : nat) (s : Session) (id : string) (b : Bug.t) :
  reachable w -> sessions w !! sid = Some s -> logged_in s = true ->
  findById id (bugs (store w)) = Returned (Some b) ->
  is_Some (reporter_doc (populate (users (store w)) b))
  /\ ((get_bugs_id id s (store w)).1
        = Render (view_bugs_show (populate (users (store w)) b))
      \/ (get_bugs_id id s (store w)).1
         = flash_error "Not authorized to view this bug" "/dashboard").
Proof.
  intros Hw Hsid Hs Hfind.
  destruct (reachable_references w Hw) as [Hst _].
  pose proof (findById_elem_of _ _ _ Hfind) as Hb.
  unfold store_ok in Hst. rewrite Forall_forall in Hst.
  destruct (find_id_elem_of User._id _ _ (Hst _ Hb)) as (u & Hu & Hid).
  unfold get_bugs_id, requireLogin. rewrite Hs, Hfind. simpl.
  unfold populate at 1 2. rewrite Hu. simpl. split; [by eexists|].
  destruct (not_admin s); simpl; [|by left].
  destruct (negb _); simpl; [by right|by left].
Qed.

End Handlers.

(** * The further properties on the sample store *)

Ltac computed := vm_compute; reflexivity.

Lemma protected_routes_require_login_witness :
  @handle sample_collaborators sample_env (GET_dashboard ∅) no_session sample_store
  = (flash_error "You must be logged in" "/login", no_session, sample_store).
Proof.
  apply (@protected_routes_require_login sample_collaborators).
  - computed.
  - computed.
Defined.

Lemma logout_ends_access_witness :
  @handle sample_collaborators sample_env (PUT_bugs_id "d4" ∅)
    (@handle sample_collaborators sample_env POST_logout (session_of alice)
       sample_store).1.2
    (@handle sample_collaborators sample_env POST_logout (session_of alice)
       sample_store).2
  = (flash_error "You must be logged in" "/login", no_session, sample_store).
Proof.
  refine (proj2 (@logout_ends_access sample_collaborators sample_env sample_env
                   (PUT_bugs_id "d4" ∅) (session_of alice) sample_store _)).
  computed.
Defined.

Lemma admin_users_listing_witness :
  get_admin_users (session_of alice) sample_store
  = (flash_error "Admin access required" "/", sample_store).
Proof.
  refine (proj1 (admin_users_listing (session_of alice) sample_store)
            (or_intror _)).
  discriminate.
Defined.

Lemma rejected_id_is_caught_witness :
  @get_bugs_id sample_collaborators "" (session_of alice) sample_store
  = (flash_error "Error loading bug" "/dashboard", sample_store).
Proof.
  refine (proj1 (@rejected_id_is_caught sample_collaborators "" ∅
                   (session_of alice) sample_store _ _)).
  - computed.
  - computed.
Defined.

Lemma register_requires_all_fields_witness :
  @post_register sample_collaborators sample_env
    (<[ "email" := JS.JStr "" ]> carol_form) sample_store
  = (flash_error "Please fill all fields" "/register", sample_store).
Proof.
  apply (@register_requires_all_fields sample_collaborators).
  right; left. computed.
Defined.

Lemma register_same_email_twice_witness :
  @post_register sample_collaborators sample_env
    (<[ "name" := JS.JStr "Caroline" ]> carol_form)
    (@post_register sample_collaborators sample_env carol_form sample_store).2
  = (flash_error "Email already in use" "/register",
     (@post_register sample_collaborators sample_env carol_form sample_store).2)
  /\ @post_register sample_collaborators sample_env
       (delete "password" carol_form)
       (@post_register sample_collaborators sample_env carol_form sample_store).2
     = (flash_error "Please fill all fields" "/register",
        (@post_register sample_collaborators sample_env carol_form sample_store).2).
Proof.
  split.
  - refine (proj1 (proj2 (@register_same_email_twice sample_collaborators
                            sample_env sample_env carol_form _
                            "carol@example.com" sample_store _ _ _ _)) _ _);
      computed.
  - refine (proj2 (proj2 (@register_same_email_twice sample_collaborators
                            sample_env sample_env carol_form _
                            "carol@example.com" sample_store _ _ _ _))
              (or_intror _)); computed.
Defined.

Lemma register_then_login_witness :
  exists u,
    users (@post_register sample_collaborators sample_env carol_form sample_store).2
      = users sample_store ++ [u]
    /\ User.email u = "carol@example.com"
    /\ @post_login sample_collaborators carol_form no_session
         (@post_register sample_collaborators sample_env carol_form sample_store).2
       = (flash_success "Logged in" "/dashboard",
          {| userId := Some (newId sample_env);
             userName := Some (User.name u);
             userRole := Some (if JS.strict_eq_str (carol_form !! "role") "admin"
                               then "admin" else "reporter") |}).
Proof.
  apply (@register_then_login sample_collaborators sample_env carol_form
           "carol@example.com" no_session sample_store).
  - computed.
  - computed.
  - intros h Hh. vm_compute in Hh. injection Hh as <-. computed.
  - computed.
Defined.

Lemma page_routes_change_nothing_witness :
  (@handle sample_collaborators sample_env (GET_dashboard ∅) (session_of root)
     sample_store).2 = sample_store
  /\ (@handle sample_collaborators sample_env (GET_dashboard ∅) (session_of root)
        sample_store).1.2 = session_of root.
Proof.
  apply (@page_routes_change_nothing sample_collaborators). computed.
Defined.

Lemma only_successes_write_witness :
  success_response
    (@handle sample_collaborators sample_env
       (POST_bugs {[ "title" := JS.JStr "New" ]}) (session_of alice)
       sample_store).1.1 = true.
Proof.
  apply (@only_successes_write sample_collaborators).
  intros Heq. apply (f_equal (fun st => length (bugs st))) in Heq.
  vm_compute in Heq. discriminate.
Defined.

Lemma emails_stay_unique_witness :
  NoDup (map User.email
           (users (@handle sample_collaborators sample_env
                     (POST_register carol_form) no_session sample_store).2)).
Proof.
  apply (@emails_stay_unique sample_collaborators). by_computation.
Defined.

Lemma stored_bugs_stay_valid_witness :
  Forall (fun b => Bug.valid b = true)
    (bugs (@handle sample_collaborators sample_env
             (PUT_bugs_id "d4" {[ "status" := JS.JStr "Closed" ]})
             (session_of alice) sample_store).2).
Proof.
  apply (@stored_bugs_stay_valid sample_collaborators).
  repeat constructor.
Defined.


(** A [null] severity and description are kept as they are: no default,
    no failure. *)
Example null_severity_is_kept :
  @post_bugs sample_collaborators sample_env
    {[ "title" := JS.JStr "New"; "severity" := JS.JNull;
       "description" := JS.JNull ]}
    (session_of alice) sample_store
  = (flash_success "Bug reported" "/dashboard",
     {| users := users sample_store;
        bugs := bugs sample_store
                ++ [Bug.mk "g7" "New" None None "Open" "a1" 9000] |}).
Proof. vm_compute. reflexivity. Qed.

Lemma create_needs_title_witness :
  @post_bugs sample_collaborators sample_env
    {[ "description" := JS.JStr "No title given" ]} (session_of alice) sample_store
  = (flash_error "Failed to report bug" "/bugs/new", sample_store).
Proof.
  apply (@create_needs_title sample_collaborators).
  - computed.
  - left. computed.
Defined.

Lemma update_touches_one_bug_witness :
  bugs (@put_bugs_id sample_collaborators "d4" {[ "status" := JS.JStr "Closed" ]}
          (session_of alice) sample_store).2 !! 1%nat = Some crash_bug.
Proof.
  pose proof (proj2 (@update_touches_one_bug sample_collaborators "d4"
                       {[ "status" := JS.JStr "Closed" ]} (session_of alice)
                       sample_store)) as Hothers.
  destruct (Forall2_lookup_l _ _ _ 1%nat crash_bug Hothers eq_refl)
    as (b' & Hb' & Hsame).
  rewrite Hb'. f_equal. apply Hsame. vm_compute. discriminate.
Defined.

Lemma update_stores_submitted_witness :
  exists oid b',
    @castObjectId sample_collaborators "d4" = Some oid
    /\ find (fun x => String.eqb (Bug._id x) oid)
         (bugs (@put_bugs_id sample_collaborators "d4"
                  {[ "status" := JS.JStr "Closed" ]} (session_of alice)
                  sample_store).2) = Some b'
    /\ Bug.status b' = "Closed".
Proof.
  destruct (@update_stores_submitted sample_collaborators "d4"
              {[ "status" := JS.JStr "Closed" ]} (session_of alice) sample_store)
    as (oid & b' & Hc & Hfind & _ & _ & _ & Hstatus).
  - computed.
  - exists oid, b'. split; [exact Hc|]. split; [exact Hfind|].
    specialize (Hstatus (JS.JStr "Closed")).
    assert (Some "Closed" = Some (Bug.status b')) as [= <-]; [|done].
    apply Hstatus; computed.
Defined.

Lemma dashboard_counts_witness :
  (length (map (populate (users sample_store)) [typo_bug; crash_bug; login_bug])
     <= 10)%nat
  /\ (length (map (populate (users sample_store)) [typo_bug; crash_bug; login_bug])
        <= 3)%nat
  /\ 3%nat = length (base.filter
                       (@matches sample_collaborators
                          (dashboard_filter (session_of root) ∅))
                       (bugs sample_store))
  /\ (3 <= 10 * 1 < 3 + 10)%nat
  /\ Forall (fun p => doc p ∈ bugs sample_store
                      /\ @matches sample_collaborators
                           (dashboard_filter (session_of root) ∅) (doc p))
       (map (populate (users sample_store)) [typo_bug; crash_bug; login_bug]).
Proof.
  apply (@dashboard_counts sample_collaborators ∅ (session_of root)
           sample_store sample_store _ _ (Some (JS.Int 1)) _ (None, None, None)).
  computed.
Defined.

Lemma dashboard_filter_by_status_and_severity_witness :
  @matches sample_collaborators
    (dashboard_filter (session_of alice)
       {[ "status" := JS.QStr "Open"; "severity" := JS.QStr "High" ]})
    login_bug.
Proof.
  apply (@dashboard_filter_by_status_and_severity sample_collaborators
           (session_of alice) _ "a1" "Open" "High" login_bug).
  - computed.
  - computed.
  - discriminate.
  - computed.
  - discriminate.
  - left. computed.
  - split; [right; reflexivity|]. split; reflexivity.
Defined.

Lemma blank_params_add_nothing_witness :
  dashboard_filter (session_of alice) (<[ "status" := JS.QStr "" ]> ∅)
  = dashboard_filter (session_of alice) (delete "status" ∅).
Proof.
  refine (proj1 (blank_params_add_nothing (session_of alice) ∅ "status" _)).
  by_computation.
Defined.

Lemma admin_sees_every_bug_witness :
  @countDocuments sample_collaborators (dashboard_filter (session_of root) ∅)
    (bugs sample_store) = length (bugs sample_store).
Proof.
  refine (proj2 (@admin_sees_every_bug sample_collaborators (session_of root) ∅
                   sample_store _ _ _ _)).
  - computed.
  - left. computed.
  - left. computed.
  - left. computed.
Defined.

Lemma setup_creates_admin_once_witness :
  @get_setup_create_admin sample_collaborators sample_env
    (@get_setup_create_admin sample_collaborators sample_env sample_store).2
  = (Send 200 "Admin already exists. Delete it and re-run if you want a fresh one.",
     (@get_setup_create_admin sample_collaborators sample_env sample_store).2).
Proof.
  apply (@setup_creates_admin_once sample_collaborators); computed.
Defined.

Lemma view_of_existing_bug_never_fails_witness :
  exists b,
    @findById sample_collaborators "b1" (bugs (store carol_world))
      = Returned (Some b)
    /\ is_Some (reporter_doc (populate (users (store carol_world)) b)).
Proof.
  eexists. split; [computed|].
  refine (proj1 (@view_of_existing_bug_never_fails sample_collaborators
                   carol_world 1%nat
                   {| userId := Some "u1"; userName := Some "Carol";
                      userRole := Some "reporter" |} "b1" _ _ _ _ _)).
  - unfold carol_world. repeat constructor.
  - computed.
  - computed.
  - computed.
Defined.
